(** * Week menu generator: a shallow embedding of [generate_weekmenu.py]

    The script reads two Google calendars and a recipe spreadsheet, builds a
    seven-day table of events, picks a recipe per day and writes the plan back
    to a calendar, recording each pick in the spreadsheet.

    Modelling conventions.
    - A calendar date ([datetime.date], and the midnight [Timestamp]s that index
      the data frames) is a [Z]: the number of days since 1970-01-01.
      [timedelta(days=n)] is addition of [n].
    - A pandas [DataFrame] is the list of its rows in index order; a missing
      cell ([NaN], [NaT]) is [None].
    - A Python [dict] is a [gmap]; [str] is [string].
    - External services (Calendar, Sheets) are modelled by the requests the
      script sends to them, collected in order in the [world]. *)

From Stdlib Require Import ZArith List String Ascii Bool Lia Permutation Sorted.
From stdpp Require Import base strings gmap.
Import ListNotations.
Open Scope string_scope.
Open Scope list_scope.
Open Scope Z_scope.

(** ** Dates *)

Module Date.

(** Proleptic Gregorian (year, month, day) of a day number, as the
    [datetime] module computes it. *)
Definition civil (z0 : Z) : Z * Z * Z :=
  let z := z0 + 719468 in
  let era := z / 146097 in
  let doe := z - era * 146097 in
  let yoe := (doe - doe / 1460 + doe / 36524 - doe / 146096) / 365 in
  let doy := doe - (365 * yoe + yoe / 4 - yoe / 100) in
  let mp := (5 * doy + 2) / 153 in
  let d := doy - (153 * mp + 2) / 5 + 1 in
  let m := if mp <? 10 then mp + 3 else mp - 9 in
  let y := yoe + era * 400 + (if m <=? 2 then 1 else 0) in
  (y, m, d).

Definition digit (n : Z) : ascii := ascii_of_nat (48 + Z.to_nat (n mod 10)).

(** [n] written with exactly [w] decimal digits, zero padded. *)
Fixpoint zfill (w : nat) (n : Z) : string :=
  match w with
  | O => EmptyString
  | S w' => zfill w' (n / 10) ++ String (digit n) EmptyString
  end.

(** [date.isoformat()]: YYYY-MM-DD. *)
Definition isoformat (d : Z) : string :=
  let '(y, m, dd) := civil d in
  zfill 4 y ++ "-" ++ zfill 2 m ++ "-" ++ zfill 2 dd.

(** [strftime('%d-%m-%Y')]. *)
Definition strftime_dmY (d : Z) : string :=
  let '(y, m, dd) := civil d in
  zfill 2 dd ++ "-" ++ zfill 2 m ++ "-" ++ zfill 4 y.

(** [date.weekday()]: Monday is 0; 1970-01-01 was a Thursday. *)
Definition weekday (d : Z) : Z := (d + 3) mod 7.

Definition day_name (w : Z) : string :=
  match w with
  | 0 => "Monday" | 1 => "Tuesday" | 2 => "Wednesday" | 3 => "Thursday"
  | 4 => "Friday" | 5 => "Saturday" | _ => "Sunday"
  end.

(** [strftime('%A')]. *)
Definition strftime_A (d : Z) : string := day_name (weekday d).

End Date.

(** ** Python and pandas primitives *)

Inductive exn :=
| ValueError (msg : string)
| KeyError (key : string).

Inductive result (A : Type) :=
| Ok (a : A)
| Raise (e : exn).
Arguments Ok {A} a.
Arguments Raise {A} e.

(** [range(n)] *)
Definition range (n : Z) : list Z := map Z.of_nat (seq 0 (Z.to_nat n)).

(** [str.upper()] on ASCII letters. *)
Definition upper_ascii (c : ascii) : ascii :=
  let n := nat_of_ascii c in
  if ((97 <=? n) && (n <=? 122))%nat then ascii_of_nat (n - 32) else c.

Fixpoint upper (s : string) : string :=
  match s with
  | EmptyString => EmptyString
  | String c s' => String (upper_ascii c) (upper s')
  end.

(** [x in xs] for a list of strings. *)
Definition str_in (x : string) (xs : list string) : bool :=
  existsb (String.eqb x) xs.

(** Insertion sort. Rows with equal keys keep their order; pandas leaves the
    order of such rows open. *)
Fixpoint insert_by {A : Type} (le : A -> A -> bool) (x : A) (l : list A) : list A :=
  match l with
  | [] => [x]
  | y :: l' => if le x y then x :: l else y :: insert_by le x l'
  end.

Definition sort_by {A : Type} (le : A -> A -> bool) (l : list A) : list A :=
  fold_right (insert_by le) [] l.

(** Whether an index holds a label twice ([Index.is_unique] negated). *)
Fixpoint has_duplicates (l : list Z) : bool :=
  match l with
  | [] => false
  | x :: l' => existsb (Z.eqb x) l' || has_duplicates l'
  end.

(** [np.random.choice(a)]: the element at a uniformly drawn position;
    [u] is the raw output of the generator, reduced to a position of [a]. *)
Definition np_random_choice (u : nat) (a : list string) : result string :=
  match a with
  | [] => Raise (ValueError "a cannot be empty unless no samples are taken")
  | _ => Ok (nth (u mod length a)%nat a "")
  end.

(** ** Calendar code *)

(** An event as [get_events_by_calendarId] receives it from the Calendar API,
    with the [start] and [end] dates that [get_event_date] extracts already
    read as dates. *)
Record gcal_event := {
  ev_start : Z;
  ev_end : Z;
  summary : string
}.

(** The loop body of [unfold_events_list] for one event [e = (start, end, label)];
    [today] is [datetime.now().date()]. *)
Definition unfold_event (today : Z) (e : Z * Z * string) : list (Z * string) :=
  let '(start, end_, label) := e in
  let delta_days := end_ - start in
  if delta_days >? 1 then
    flat_map (fun d =>
                let unfolded_day := start + d in
                if (unfolded_day >=? today) && (unfolded_day <=? today + 6)
                then [(unfolded_day, label)] else [])
             (range delta_days)
  else [(start, label)].

Definition unfold_events_list (today : Z) (events_list : list (Z * Z * string))
  : list (Z * string) :=
  fold_left (fun new_events_list e => new_events_list ++ unfold_event today e)
            events_list [].

(** [events] is the list the Calendar API returns for the request with
    [timeMin] and [timeMax]. *)
Definition get_events_by_calendarId (today : Z) (events : list gcal_event)
           (allEvents : list string) : list (Z * string) :=
  let events_list :=
    map (fun e => (ev_start e, ev_end e, upper (summary e)))
        (List.filter (fun e => str_in (upper (summary e)) allEvents) events) in
  unfold_events_list today events_list.

(** A row of [events_df] and of [weekmenu_df], indexed by [date]. The columns
    [recipe] and [description] exist only in [weekmenu_df]; a column that is
    absent or not yet filled reads [None]. *)
Module Day.
Record t := mk {
  date : Z;
  events_cal_1 : option string;
  events_cal_2 : option string;
  weekday : string;
  recipe : option string;
  description : option string
}.
End Day.

(** A row of the frame that [merge] builds, before the weekday is added. *)
Definition merged_row : Type := Z * option string * option string.

Definition row_date (r : merged_row) : Z := fst (fst r).

(** [events_df_1.merge(events_df_2, on='date', how='outer')]: every pair of a
    left and a right row with the same date, and the rows of either side that
    have no partner. *)
Definition merge_outer (df1 df2 : list (Z * string)) : list merged_row :=
  flat_map (fun l =>
              match List.filter (fun r => fst r =? fst l) df2 with
              | [] => [(fst l, Some (snd l), None)]
              | ms => map (fun r => (fst l, Some (snd l), Some (snd r))) ms
              end) df1
  ++ flat_map (fun r =>
                 if existsb (fun l => fst l =? fst r) df1 then []
                 else [(fst r, None, Some (snd r))]) df2.

(** [sort_index()] *)
Definition sort_index (df : list merged_row) : list merged_row :=
  sort_by (fun a b => row_date a <=? row_date b) df.

(** [pd.period_range(START_DAY, NEXT_WEEK, freq='D')] as dates. *)
Definition period_range (START_DAY NEXT_WEEK : Z) : list Z :=
  map (fun k => START_DAY + k) (range (NEXT_WEEK - START_DAY + 1)).

(** [df.reindex(new_idx)]: pandas refuses to reindex a frame whose index
    repeats a label. *)
Definition reindex (df : list merged_row) (new_idx : list Z) : result (list merged_row) :=
  if has_duplicates (map row_date df) then
    Raise (ValueError "cannot reindex on an axis with duplicate labels")
  else
    Ok (map (fun d =>
               match find (fun r => row_date r =? d) df with
               | Some r => r
               | None => (d, None, None)
               end) new_idx).

(** [START_DAY] and [NEXT_WEEK] are the module-level values the function reads. *)
Definition create_events_df (START_DAY NEXT_WEEK : Z)
           (events_list_1 events_list_2 : list (Z * string)) : result (list Day.t) :=
  let events_df := merge_outer events_list_1 events_list_2 in
  let events_df := sort_index events_df in
  let new_idx := period_range START_DAY NEXT_WEEK in
  match reindex events_df new_idx with
  | Raise e => Raise e
  | Ok events_df =>
      Ok (map (fun r =>
                 Day.mk (row_date r) (snd (fst r)) (snd r)
                        (Date.strftime_A (row_date r)) None None)
              events_df)
  end.

(** ** Reading and writing dates as text *)

(** [datetime.strptime(s, '%Y-%m-%d').date()] and the arithmetic of
    [datetime.date] behind it. *)
Module Strptime.

Definition is_leap (year : Z) : bool :=
  (year mod 4 =? 0) && (negb (year mod 100 =? 0) || (year mod 400 =? 0)).

Definition days_in_month (year month : Z) : Z :=
  match month with
  | 2 => if is_leap year then 29 else 28
  | 4 | 6 | 9 | 11 => 30
  | _ => 31
  end.

Definition days_before_year (year : Z) : Z :=
  let y := year - 1 in
  y * 365 + y / 4 - y / 100 + y / 400.

Definition days_before_month (year month : Z) : Z :=
  match month with
  | 1 => 0 | 2 => 31 | 3 => 59 | 4 => 90 | 5 => 120 | 6 => 151
  | 7 => 181 | 8 => 212 | 9 => 243 | 10 => 273 | 11 => 304 | _ => 334
  end
  + (if (month >? 2) && is_leap year then 1 else 0).

(** [date(year, month, day).toordinal()]; day 1 is 0001-01-01. *)
Definition ymd2ord (year month day : Z) : Z :=
  days_before_year year + days_before_month year month + day.

(** The day number of a date: its ordinal less that of 1970-01-01. *)
Definition of_ymd (year month day : Z) : Z := ymd2ord year month day - 719163.

Definition in_range (lo hi : nat) (c : ascii) : bool :=
  ((lo <=? nat_of_ascii c) && (nat_of_ascii c <=? hi))%nat.

(** The value of a character that is known to be a digit. *)
Definition digit_value (c : ascii) : Z := Z.of_nat (nat_of_ascii c - 48).

(** The directive [%Y] is the pattern [\d\d\d\d]. *)
Definition match_Y (s : string) : list (Z * string) :=
  match s with
  | String a (String b (String c (String d rest))) =>
      if in_range 48 57 a && in_range 48 57 b && in_range 48 57 c && in_range 48 57 d
      then [(1000 * digit_value a + 100 * digit_value b
             + 10 * digit_value c + digit_value d, rest)]
      else []
  | _ => []
  end.

(** The literal [-] of the format. *)
Definition match_dash (s : string) : list string :=
  match s with
  | String c rest => if Ascii.eqb c "-" then [rest] else []
  | _ => []
  end.

(** Two characters [a b] with [a] the character [c] and [b] between [lo] and [hi]. *)
Definition two_chars (c : ascii) (lo hi : nat) (s : string) : list (Z * string) :=
  match s with
  | String a (String b rest) =>
      if Ascii.eqb a c && in_range lo hi b
      then [(10 * digit_value a + digit_value b, rest)] else []
  | _ => []
  end.

(** One character between 1 and 9. *)
Definition one_char (s : string) : list (Z * string) :=
  match s with
  | String a rest => if in_range 49 57 a then [(digit_value a, rest)] else []
  | _ => []
  end.

(** The directive [%m] is the pattern [1[0-2]|0[1-9]|[1-9]]; the ways to match
    it at the head of [s], in the order the matcher tries them. *)
Definition match_m (s : string) : list (Z * string) :=
  two_chars "1" 48 50 s ++ two_chars "0" 49 57 s ++ one_char s.

(** The directive [%d] is the pattern [3[0-1]|[1-2]\d|0[1-9]|[1-9]| [1-9]]. *)
Definition match_d (s : string) : list (Z * string) :=
  two_chars "3" 48 49 s ++ two_chars "1" 48 57 s ++ two_chars "2" 48 57 s
  ++ two_chars "0" 49 57 s ++ one_char s
  ++ match s with
     | String a rest => if Ascii.eqb a " " then one_char rest else []
     | _ => []
     end.

(** The ways to match [-%m-%d] at the head of [s], in the order of the
    backtracking search: month, day and what is left of [s]. *)
Definition matches_md (s1 : string) : list (Z * Z * string) :=
  flat_map (fun s2 =>
    flat_map (fun '(m, s3) =>
      flat_map (fun s4 => map (fun '(d, s5) => (m, d, s5)) (match_d s4))
               (match_dash s3))
    (match_m s2))
  (match_dash s1).

(** The ways to match the pattern of ['%Y-%m-%d'] at the head of [s]. *)
Definition matches (s : string) : list (Z * Z * Z * string) :=
  flat_map (fun '(y, s1) => map (fun '(m, d, s5) => (y, m, d, s5)) (matches_md s1))
           (match_Y s).

Definition strptime (s : string) : result Z :=
  match matches s with
  | [] => Raise (ValueError "time data does not match format")
  | (year, month, day, rest) :: _ =>
      match rest with
      | String _ _ => Raise (ValueError "unconverted data remains")
      | EmptyString =>
          if year <? 1 then Raise (ValueError "year is out of range")
          else if day >? days_in_month year month
               then Raise (ValueError "day is out of range for month")
               else Ok (of_ymd year month day)
      end
  end.

End Strptime.

(** [format_date]: midnight of the date as an RFC 3339 timestamp. *)
Definition format_date (date : Z) : string :=
  (Date.isoformat date ++ "T00:00:00" ++ "Z")%string.

(** [f] holds of the [fuel] integers from [k] on. *)
Fixpoint all_from (fuel : nat) (k : Z) (f : Z -> bool) : bool :=
  match fuel with
  | O => true
  | S n => if f k then all_from n (k + 1) f else false
  end.

(** The dates of [datetime.date]: 0001-01-01 to 9999-12-31. *)
Definition is_date (n : Z) : Prop := -719162 <= n <= 2932896.

(** ** The calendar code on the events as the service lists them *)

(** The exceptions of the built-in types beside those of [exn]. *)
Inductive error :=
| Exn (e : exn)
| IndexError (msg : string)
| TypeError (msg : string).

Inductive try (A : Type) :=
| Done (a : A)
| Fail (e : error).
Arguments Done {A} a.
Arguments Fail {A} e.

(** [s[:n]] *)
Fixpoint str_prefix (n : nat) (s : string) : string :=
  match n, s with
  | S n', String c s' => String c (str_prefix n' s')
  | _, _ => EmptyString
  end.

(** [datetime.strptime(s, '%Y-%m-%d').date()] on a value that may be [None]. *)
Definition strptime_date (s : option string) : try Z :=
  match s with
  | None => Fail (TypeError "strptime() argument 1 must be str, not None")
  | Some s =>
      match Strptime.strptime s with
      | Ok d => Done d
      | Raise e => Fail (Exn e)
      end
  end.

Module Api.

(** The dictionary under the key [start] or [end] of an event: an all-day
    event has [date], an event with a time of day has [dateTime]. *)
Record time_point := {
  date : option string;
  dateTime : option string
}.

(** An event of the list [items] of the service's answer; a key that the
    event does not have reads [None]. *)
Record event := {
  start : option time_point;
  end_ : option time_point;
  summary : option string
}.

(** The values of the parameter [timepoint]. *)
Inductive timepoint := at_start | at_end.

Definition key (t : timepoint) : string :=
  match t with
  | at_start => "start"
  | at_end => "end"
  end.

Definition get_event_date (e : event) (t : timepoint) : try (option string) :=
  match (match t with at_start => start e | at_end => end_ e end) with
  | None => Fail (Exn (KeyError (key t)))
  | Some p =>
      Done (match dateTime p with
            | Some s => Some s
            | None => date p
            end)
  end.

(** The loop of [unfold_events_list] on tuples whose dates are still text. *)
Fixpoint unfold_loop (today : Z) (events_list : list (option string * option string * string))
         (new_events_list : list (Z * string)) : try (list (Z * string)) :=
  match events_list with
  | [] => Done new_events_list
  | e :: rest =>
      match strptime_date (fst (fst e)) with
      | Fail x => Fail x
      | Done start =>
          match strptime_date (snd (fst e)) with
          | Fail x => Fail x
          | Done end_ =>
              unfold_loop today rest
                          (new_events_list ++ unfold_event today (start, end_, snd e))
          end
      end
  end.

Definition unfold_events_list (today : Z)
           (events_list : list (option string * option string * string))
  : try (list (Z * string)) :=
  unfold_loop today events_list [].

(** The list comprehension of [get_events_by_calendarId]. *)
Fixpoint events_list (events : list event) (allEvents : list string)
  : try (list (option string * option string * string)) :=
  match events with
  | [] => Done []
  | e :: rest =>
      match summary e with
      | None => Fail (Exn (KeyError "summary"))
      | Some s =>
          if str_in (upper s) allEvents then
            match get_event_date e at_start with
            | Fail x => Fail x
            | Done a =>
                match get_event_date e at_end with
                | Fail x => Fail x
                | Done b =>
                    match events_list rest allEvents with
                    | Fail x => Fail x
                    | Done l => Done ((a, b, upper s) :: l)
                    end
                end
            end
          else events_list rest allEvents
      end
  end.

(** [events] is the list [items] of the service's answer. *)
Definition get_events_by_calendarId (today : Z) (events : list event)
           (allEvents : list string) : try (list (Z * string)) :=
  match events_list events allEvents with
  | Fail x => Fail x
  | Done l => unfold_events_list today l
  end.

(** [items] is the list [items] of the service's answer. *)
Definition get_date_last_event (items : list event) : try Z :=
  match rev items with
  | [] => Fail (IndexError "list index out of range")
  | e :: _ =>
      match start e with
      | None => Fail (Exn (KeyError "start"))
      | Some p =>
          match date p with
          | None => Fail (Exn (KeyError "date"))
          | Some s => strptime_date (Some (str_prefix 10 s))
          end
      end
  end.

End Api.


(** ** Recipes code *)

(** A row of the recipe sheet after [get_recipes] has parsed it; the frame is
    indexed by [row_number], the row of the recipe in the sheet. *)
Module Recipe.
Record t := mk {
  row_number : string;
  recipe : string;
  description : string;
  difficulty : string;
  last_date_on_menu : option Z
}.
End Recipe.

(** [last_date_on_menu < PREV_WEEK] on one cell; a comparison with [NaT] is false. *)
Definition date_lt (d : option Z) (bound : Z) : bool :=
  match d with
  | Some x => x <? bound
  | None => false
  end.

(** [np.isnat] *)
Definition isnat (d : option Z) : bool :=
  match d with
  | Some _ => false
  | None => true
  end.

(** [recipes_df] is the parsed sheet, [PREV_WEEK] the module-level bound. *)
Definition get_recipes (PREV_WEEK : Z) (recipes_df : list Recipe.t)
  : list Recipe.t * list Recipe.t :=
  let eligible_recipes :=
    List.filter (fun r => date_lt (Recipe.last_date_on_menu r) PREV_WEEK
                          || isnat (Recipe.last_date_on_menu r)) recipes_df in
  (recipes_df, eligible_recipes).

(** The order of [sort_values(..., na_position='first')] on the sort key. *)
Definition na_first_le (a b : option Z) : bool :=
  match a, b with
  | None, _ => true
  | Some _, None => false
  | Some x, Some y => x <=? y
  end.

Definition sort_values_last_date (df : list Recipe.t) : list Recipe.t :=
  sort_by (fun a b => na_first_le (Recipe.last_date_on_menu a) (Recipe.last_date_on_menu b)) df.

(** [df.query("difficulty == 'difficult'")] *)
Definition query_difficult (df : list Recipe.t) : list Recipe.t :=
  List.filter (fun r => String.eqb (Recipe.difficulty r) "difficult") df.

(** The rows of the recipe frame that carry the index label [label]; the
    index is the column [row_number] of the sheet, and a label can be carried
    by several rows. *)
Definition rows_with_label (df : list Recipe.t) (label : string) : list Recipe.t :=
  List.filter (fun r => String.eqb (Recipe.row_number r) label) df.

(** [df.loc[label, column]] where it is a cell of the frame: [label] is
    carried by one row. For a label that several rows carry, the lookup gives
    a Series of their cells, and for one that no row carries it raises. *)
Definition loc (df : list Recipe.t) (label : string) : option Recipe.t :=
  match rows_with_label df label with
  | [r] => Some r
  | _ => None
  end.

(** [df.drop(label)] *)
Definition drop (df : list Recipe.t) (label : string) : list Recipe.t :=
  List.filter (fun r => negb (String.eqb (Recipe.row_number r) label)) df.

(** [weekmenu_df.loc[idx, 'recipe'] = recipe] followed by
    [weekmenu_df.loc[idx, 'description'] = description]. *)
Definition set_menu (weekmenu_df : list Day.t) (idx : Z) (recipe description : string)
  : list Day.t :=
  map (fun r =>
         if Day.date r =? idx then
           Day.mk (Day.date r) (Day.events_cal_1 r) (Day.events_cal_2 r) (Day.weekday r)
                  (Some recipe) (Some description)
         else r) weekmenu_df.

(** The candidates of a draw: the index values of the five least recently
    used rows of the queried frame. *)
Definition candidates (eligible_recipes : list Recipe.t) : list string :=
  firstn 5 (map Recipe.row_number (sort_values_last_date (query_difficult eligible_recipes))).

(** [choose_recipe]; both frames are changed in place in the source and are
    returned here, [u] is the output of the random generator. When the drawn
    label is carried by several rows of [eligible_recipes], the right-hand
    side of the first assignment is a Series, which the assignment into the
    one cell [weekmenu_df.loc[idx, 'recipe']] refuses with a [ValueError]. *)
Definition choose_recipe (u : nat) (difficulty : string) (idx : Z)
           (weekmenu_df : list Day.t) (eligible_recipes : list Recipe.t)
  : result (string * list Day.t * list Recipe.t) :=
  match np_random_choice u (candidates eligible_recipes) with
  | Raise e => Raise e
  | Ok choice_idx =>
      match loc eligible_recipes choice_idx with
      | Some r =>
          let weekmenu_df := set_menu weekmenu_df idx (Recipe.recipe r) (Recipe.description r) in
          let eligible_recipes := drop eligible_recipes choice_idx in
          Ok (choice_idx, weekmenu_df, eligible_recipes)
      | None =>
          match rows_with_label eligible_recipes choice_idx with
          | [] => Raise (KeyError choice_idx)
          | _ => Raise (ValueError "Incompatible indexer with Series")
          end
      end
  end.

(** ** The process state and the external services *)

(** Body of [spreadsheets().values().update]. *)
Record sheet_update := {
  upd_spreadsheetId : string;
  upd_range : string;
  upd_valueInputOption : string;
  upd_values : list (list string)
}.

(** Body of [events().insert]. *)
Record calendar_insert := {
  ins_calendarId : string;
  ins_summary : option string;
  ins_description : option string;
  ins_start_date : string;
  ins_start_timeZone : string;
  ins_end_date : string;
  ins_end_timeZone : string
}.

(** The module-level frames, the requests sent so far (oldest first) and the
    number of values taken from the random generator. *)
Record world := mkWorld {
  recipes_df : list Recipe.t;
  eligible_recipes : list Recipe.t;
  sheet_requests : list sheet_update;
  calendar_requests : list calendar_insert;
  draws : nat
}.

(** Computations that change the world and may raise. An exception keeps the
    world as it was when it was raised: requests already sent stay sent. *)
Definition M (A : Type) : Type := world -> result A * world.

Definition ret {A : Type} (a : A) : M A := fun w => (Ok a, w).

Definition raise {A : Type} (e : exn) : M A := fun w => (Raise e, w).

Definition bind {A B : Type} (m : M A) (f : A -> M B) : M B :=
  fun w =>
    match m w with
    | (Ok a, w') => f a w'
    | (Raise e, w') => (Raise e, w')
    end.

Notation "x <- m ;; k" := (bind m (fun x => k))
  (at level 100, m at next level, right associativity).

(** [update_sheet(service, row_number, date, spreadsheetId)] *)
Definition update_sheet (row_number : string) (date : string) (spreadsheetId : string)
  : M unit :=
  fun w =>
    let range := ("recepten!F" ++ row_number)%string in
    let values := [[date]] in
    (Ok tt,
     mkWorld (recipes_df w) (eligible_recipes w)
             (sheet_requests w ++
                [{| upd_spreadsheetId := spreadsheetId; upd_range := range;
                    upd_valueInputOption := "USER_ENTERED"; upd_values := values |}])
             (calendar_requests w) (draws w)).

(** A call [choose_recipe(difficulty, i, weekmenu_df, eligible_recipes)] from
    [generate_weekmenu]: the fourth argument is the module-level frame, and
    [rng] is the stream of outputs of the random generator. *)
Definition call_choose_recipe (rng : nat -> nat) (difficulty : string) (idx : Z)
           (weekmenu_df : list Day.t) : M (string * list Day.t) :=
  fun w =>
    match choose_recipe (rng (draws w)) difficulty idx weekmenu_df (eligible_recipes w) with
    | Raise e => (Raise e, w)
    | Ok (row_number, weekmenu_df', eligible') =>
        (Ok (row_number, weekmenu_df'),
         mkWorld (recipes_df w) eligible' (sheet_requests w) (calendar_requests w)
                 (S (draws w)))
    end.

(** ** Generating and publishing the week menu *)

(** [pd.isnull] on a label. *)
Definition isnull (label : option string) : bool :=
  match label with
  | Some _ => false
  | None => true
  end.

(** [label in free_events]; [NaN] is in no list of strings. *)
Definition in_events (label : option string) (free_events : list string) : bool :=
  match label with
  | Some s => str_in s free_events
  | None => false
  end.

(** One turn of the loop of [generate_weekmenu] over the row [r] of [events_df].
    [choose] is the function that the loop calls for a draw, with the tier, the
    index of the row and the menu; in the script it is [choose_recipe] on the
    module-level frame of eligible recipes. *)
Definition weekmenu_row_with (choose : string -> Z -> list Day.t -> M (string * list Day.t))
           (SPREADSHEET_ID : string)
           (traditions : gmap string string) (free_events : list string)
           (r : Day.t) (weekmenu_df : list Day.t) : M (list Day.t) :=
  let i := Day.date r in
  match traditions !! Day.weekday r with
  | Some tradition => ret (set_menu weekmenu_df i tradition "")
  | None =>
      if str_in (Day.weekday r) ["Saturday"; "Sunday"] then
        p <- choose "difficult" i weekmenu_df ;;
        _ <- update_sheet (fst p) (Date.strftime_dmY i) SPREADSHEET_ID ;;
        ret (snd p)
      else if in_events (Day.events_cal_1 r) free_events
              || in_events (Day.events_cal_2 r) free_events
              || isnull (Day.events_cal_1 r) || isnull (Day.events_cal_2 r) then
        p <- choose "medium" i weekmenu_df ;;
        _ <- update_sheet (fst p) (Date.strftime_dmY i) SPREADSHEET_ID ;;
        ret (snd p)
      else
        p <- choose "easy" i weekmenu_df ;;
        _ <- update_sheet (fst p) (Date.strftime_dmY i) SPREADSHEET_ID ;;
        ret (snd p)
  end.

(** The loop body as the script runs it. *)
Definition weekmenu_row (rng : nat -> nat) (SPREADSHEET_ID : string)
           (traditions : gmap string string) (free_events : list string)
           (r : Day.t) (weekmenu_df : list Day.t) : M (list Day.t) :=
  weekmenu_row_with (call_choose_recipe rng) SPREADSHEET_ID traditions free_events
                    r weekmenu_df.

(** The loop [for i, r in events_df.iterrows()]. *)
Fixpoint iterrows (rng : nat -> nat) (SPREADSHEET_ID : string)
         (traditions : gmap string string) (free_events : list string)
         (rows : list Day.t) (weekmenu_df : list Day.t) : M (list Day.t) :=
  match rows with
  | [] => ret weekmenu_df
  | r :: rows' =>
      weekmenu_df <- weekmenu_row rng SPREADSHEET_ID traditions free_events r weekmenu_df ;;
      iterrows rng SPREADSHEET_ID traditions free_events rows' weekmenu_df
  end.

Definition generate_weekmenu (rng : nat -> nat) (SPREADSHEET_ID : string)
           (events_df : list Day.t) (traditions : gmap string string)
           (free_events : list string) : M (list Day.t) :=
  let weekmenu_df := events_df in
  iterrows rng SPREADSHEET_ID traditions free_events events_df weekmenu_df.

(** The event that [add_weekmenu_to_calendar] builds for one row. *)
Definition menu_event (calendarId : string) (r : Day.t) : calendar_insert :=
  {| ins_calendarId := calendarId;
     ins_summary := Day.recipe r;
     ins_description := Day.description r;
     ins_start_date := Date.isoformat (Day.date r);
     ins_start_timeZone := "Europe/Brussels";
     ins_end_date := Date.isoformat (Day.date r);
     ins_end_timeZone := "Europe/Brussels" |}.

Fixpoint add_weekmenu_to_calendar (weekmenu_df : list Day.t) (calendarId : string)
  : M unit :=
  match weekmenu_df with
  | [] => ret tt
  | r :: rows =>
      _ <- (fun w =>
              (Ok tt,
               mkWorld (recipes_df w) (eligible_recipes w) (sheet_requests w)
                       (calendar_requests w ++ [menu_event calendarId r]) (draws w))) ;;
      add_weekmenu_to_calendar rows calendarId
  end.

(** ** The script *)

(** The values of the [config] module that the script reads. *)
Record config := {
  SPREADSHEET_ID : string;
  CALENDARID_WEEKMENU : string;
  NB_DAYS_BEFORE : Z;
  ALL_EVENTS : list string;
  TRADITIONS : gmap string string;
  FREE_EVENTS : list string
}.

(** How the script ends: one of its two messages, or an uncaught exception. *)
Inductive outcome :=
| Printed (msg : string)
| Uncaught (e : error).

(** The dates that the [__main__] block derives from [DATE_LAST_RECIPE]; the
    script keeps them as module-level values, which [get_recipes] and
    [create_events_df] read. The script rebinds the three names to the texts
    that [format_date] gives for them, from which the day is read back; the
    model keeps the days. *)
Definition START_DAY (DATE_LAST_RECIPE : Z) : Z := DATE_LAST_RECIPE + 1.

Definition NEXT_WEEK (DATE_LAST_RECIPE : Z) : Z := START_DAY DATE_LAST_RECIPE + 6.

Definition PREV_WEEK (DATE_LAST_RECIPE : Z) : Z := START_DAY DATE_LAST_RECIPE + -7.

(** The [__main__] block. [today] is [datetime.now().date()],
    [DATE_LAST_RECIPE] the result of [get_date_last_event], [sheet] the parsed
    recipe sheet, [cal_1] and [cal_2] the events that the Calendar API lists
    for the two calendars. *)
Definition main (cfg : config) (rng : nat -> nat) (today DATE_LAST_RECIPE : Z)
           (sheet : list Recipe.t) (cal_1 cal_2 : list Api.event) : outcome * world :=
  let '(recipes_df, eligible_recipes) := get_recipes (PREV_WEEK DATE_LAST_RECIPE) sheet in
  let w := mkWorld recipes_df eligible_recipes [] [] 0 in
  if DATE_LAST_RECIPE - NB_DAYS_BEFORE cfg <? today then
    match Api.get_events_by_calendarId today cal_1 (ALL_EVENTS cfg) with
    | Fail x => (Uncaught x, w)
    | Done events_list_1 =>
        match Api.get_events_by_calendarId today cal_2 (ALL_EVENTS cfg) with
        | Fail x => (Uncaught x, w)
        | Done events_list_2 =>
            match create_events_df (START_DAY DATE_LAST_RECIPE) (NEXT_WEEK DATE_LAST_RECIPE)
                                   events_list_1 events_list_2 with
            | Raise e => (Uncaught (Exn e), w)
            | Ok events_df =>
                match (weekmenu_df <- generate_weekmenu rng (SPREADSHEET_ID cfg) events_df
                                        (TRADITIONS cfg) (FREE_EVENTS cfg) ;;
                       add_weekmenu_to_calendar weekmenu_df (CALENDARID_WEEKMENU cfg)) w with
                | (Ok _, w') => (Printed "Week menu is added to Google Calendar", w')
                | (Raise e, w') => (Uncaught (Exn e), w')
                end
            end
        end
    end
  else (Printed "Program stopped. Last week menu is not finished yet.", w).

(** ** The specification's reading of the operations

    These definitions follow the words of the specification, not the code;
    the properties below compare them with the code. *)

(** The candidate set of [pick(tier, ...)]: the eligible recipes of the
    requested tier, least recently used first with never-used recipes in
    front, cut to five. *)
Definition spec_candidates (tier : string) (eligible : list Recipe.t) : list string :=
  firstn 5 (map Recipe.row_number
                (sort_values_last_date
                   (List.filter (fun r => String.eqb (Recipe.difficulty r) tier) eligible))).

(** The expansion of an event over the days [start, end) it covers, kept to
    the seven-day window that begins at [window_start]. *)
Definition spec_expand (window_start : Z) (e : Z * Z * string) : list (Z * string) :=
  let '(start, end_, label) := e in
  map (fun d => (d, label))
      (List.filter (fun d => (window_start <=? d) && (d <=? window_start + 6))
                   (map (fun k => start + k) (range (end_ - start)))).



(** The shape shared by the three branches of [generate_weekmenu] that draw
    from the pool: the call of [choose_recipe] for the tier [tier], then the
    update of the sheet. *)
Definition pick_and_record (rng : nat -> nat) (SPREADSHEET_ID : string) (tier : string)
           (i : Z) (weekmenu_df : list Day.t) : M (list Day.t) :=
  p <- call_choose_recipe rng tier i weekmenu_df ;;
  _ <- update_sheet (fst p) (Date.strftime_dmY i) SPREADSHEET_ID ;;
  ret (snd p).

(** The request that [update_sheet] sends for the recipe of row [row] used on
    day [i]. *)
Definition recorded (SPREADSHEET_ID row : string) (i : Z) : sheet_update :=
  {| upd_spreadsheetId := SPREADSHEET_ID;
     upd_range := ("recepten!F" ++ row)%string;
     upd_valueInputOption := "USER_ENTERED";
     upd_values := [[Date.strftime_dmY i]] |}.




(** ** Sample data *)



(** Sample rows of a recipe sheet. *)
Definition soup : Recipe.t := Recipe.mk "2" "Soup" "Leek and potato" "easy" None.
Definition stew : Recipe.t := Recipe.mk "3" "Stew" "Beef, slow cooked" "difficult" None.
Definition roast : Recipe.t := Recipe.mk "4" "Roast" "Sunday roast" "difficult" (Some 17000).
Definition curry : Recipe.t := Recipe.mk "5" "Curry" "Chickpeas" "medium" (Some 17895).

(** A configuration with pizza on Fridays. *)
Definition sample_config : config :=
  {| SPREADSHEET_ID := "sheet-1";
     CALENDARID_WEEKMENU := "menu@example.org";
     NB_DAYS_BEFORE := 2;
     ALL_EVENTS := ["WORK"; "SPORT"; "HOME"];
     TRADITIONS := {[ "Friday" := "Pizza" ]};
     FREE_EVENTS := ["HOME"] |}.

(** A configuration in which every weekday has its tradition. *)
Definition traditions_all_week : gmap string string :=
  {[ "Monday" := "Pasta"; "Tuesday" := "Tacos"; "Wednesday" := "Wok";
     "Thursday" := "Soup"; "Friday" := "Pizza"; "Saturday" := "Stew";
     "Sunday" := "Roast" ]}.

Definition config_all_traditions : config :=
  {| SPREADSHEET_ID := "sheet-1";
     CALENDARID_WEEKMENU := "menu@example.org";
     NB_DAYS_BEFORE := 2;
     ALL_EVENTS := ["WORK"; "SPORT"; "HOME"];
     TRADITIONS := traditions_all_week;
     FREE_EVENTS := ["HOME"] |}.

(** The generator that always returns its first value. *)
Definition rng0 : nat -> nat := fun _ => 0%nat.

Definition saturday_slot : Day.t :=
  Day.mk 17901 None None "Saturday" None None.

Definition sample_world : world :=
  mkWorld [soup; stew] [soup; stew] [] [] 0.

Definition friday_slot : Day.t :=
  Day.mk 17900 (Some "WORK") None "Friday" None None.



Definition sunday_slot : Day.t :=
  Day.mk 17902 None None "Sunday" None None.

Definition weekend_world : world :=
  mkWorld [soup; stew; roast] [soup; stew; roast] [] [] 0.

(** ** Events of the model as the service lists them *)

(** The all-day event that the service lists for an event of the model. *)
Definition all_day (e : gcal_event) : Api.event :=
  {| Api.start := Some {| Api.date := Some (Date.isoformat (ev_start e));
                          Api.dateTime := None |};
     Api.end_ := Some {| Api.date := Some (Date.isoformat (ev_end e));
                         Api.dateTime := None |};
     Api.summary := Some (summary e) |}.

(** The event that the service lists after the insert [ev]. *)
Definition listed (ev : calendar_insert) : Api.event :=
  {| Api.start := Some {| Api.date := Some (ins_start_date ev); Api.dateTime := None |};
     Api.end_ := Some {| Api.date := Some (ins_end_date ev); Api.dateTime := None |};
     Api.summary := ins_summary ev |}.

(** ** Notions used to state what a run does *)

(** The slots that draw from the pool: those whose weekday has no tradition. *)
Definition drawn_slots (traditions : gmap string string) (events_df : list Day.t)
  : list Day.t :=
  List.filter (fun r => match traditions !! Day.weekday r with
                        | Some _ => false
                        | None => true
                        end) events_df.

(** The row [a] was on the menu strictly longer ago than [b], or never while
    [b] was. *)
Definition less_recent (a b : Recipe.t) : bool :=
  na_first_le (Recipe.last_date_on_menu a) (Recipe.last_date_on_menu b)
  && negb (na_first_le (Recipe.last_date_on_menu b) (Recipe.last_date_on_menu a)).

(** The slot has a recipe and a description. *)
Definition filled (r : Day.t) : Prop :=
  Day.recipe r <> None /\ Day.description r <> None.

(** What the row [b] of the menu holds for the slot [r]: the tradition of its
    weekday with an empty description, or the name and the description of a
    recipe of [eligible] that is marked 'difficult'. *)
Definition slot_content (traditions : gmap string string) (eligible : list Recipe.t)
           (r b : Day.t) : Prop :=
  match traditions !! Day.weekday r with
  | Some tradition => Day.recipe b = Some tradition /\ Day.description b = Some ""
  | None =>
      exists x, In x (query_difficult eligible)
                /\ Day.recipe b = Some (Recipe.recipe x)
                /\ Day.description b = Some (Recipe.description x)
  end.

(** * Properties *)

(** ** Dates: the model agrees with the calendar on known days *)

Example isoformat_epoch : Date.isoformat 0 = "1970-01-01".
Proof. reflexivity. Qed.

Example isoformat_2019 : Date.isoformat 17897 = "2019-01-01".
Proof. reflexivity. Qed.

Example isoformat_leap_day : Date.isoformat 18321 = "2020-02-29".
Proof. reflexivity. Qed.

Example strftime_dmY_2019 : Date.strftime_dmY 17901 = "05-01-2019".
Proof. reflexivity. Qed.

Example strftime_A_2019 : Date.strftime_A 17897 = "Tuesday".
Proof. reflexivity. Qed.

(** ** The recipe pool *)

Lemma eligible_cell (d : option Z) (bound : Z) :
  date_lt d bound || isnat d = true <->
  d = None \/ exists x, d = Some x /\ x < bound.
Proof.
  destruct d as [x|]; simpl.
  - rewrite orb_false_r, Z.ltb_lt. split.
    + intros H. right. exists x. auto.
    + intros [H | [y [H1 H2]]]; [discriminate | congruence].
  - split; auto.
Qed.

(** ** Picking a recipe *)

(** Whatever is drawn comes from the rows that the query keeps. *)
Lemma np_random_choice_In (u : nat) (a : list string) (c : string) :
  np_random_choice u a = Ok c -> In c a.
Proof.
  destruct a as [|x a'] eqn:E; [discriminate|].
  assert (Hlen : length a <> 0%nat) by (rewrite E; discriminate).
  rewrite <- E. unfold np_random_choice. rewrite E at 1.
  intros H. assert (Hc : c = nth (u mod length a)%nat a "") by congruence.
  rewrite Hc. apply nth_In. apply Nat.mod_upper_bound, Hlen.
Qed.

Lemma firstn_In {A : Type} (n : nat) (l : list A) (x : A) :
  In x (firstn n l) -> In x l.
Proof.
  revert l. induction n as [|n IH]; intros [|y l]; simpl; try tauto.
  intros [H | H]; auto.
Qed.

Lemma insert_by_perm {A : Type} (le : A -> A -> bool) (x : A) (l : list A) :
  Permutation (insert_by le x l) (x :: l).
Proof.
  induction l as [|y l IH]; simpl.
  - apply Permutation_refl.
  - destruct (le x y).
    + apply Permutation_refl.
    + eapply perm_trans; [apply perm_skip, IH | apply perm_swap].
Qed.

Lemma sort_by_perm {A : Type} (le : A -> A -> bool) (l : list A) :
  Permutation (sort_by le l) l.
Proof.
  induction l as [|x l IH]; simpl.
  - apply perm_nil.
  - eapply perm_trans; [apply insert_by_perm | apply perm_skip, IH].
Qed.

Lemma candidates_In (eligible : list Recipe.t) (c : string) :
  In c (candidates eligible) ->
  exists r, In r eligible /\ Recipe.row_number r = c /\ Recipe.difficulty r = "difficult".
Proof.
  unfold candidates. intros H. apply firstn_In in H.
  apply in_map_iff in H as [r [Hr Hin]].
  apply (Permutation_in _ (sort_by_perm _ _)) in Hin.
  apply filter_In in Hin as [Hin Hd].
  exists r. repeat split; auto. apply String.eqb_eq, Hd.
Qed.

Lemma drop_In (df : list Recipe.t) (label : string) (r : Recipe.t) :
  In r (drop df label) <-> In r df /\ Recipe.row_number r <> label.
Proof.
  unfold drop. rewrite filter_In, negb_true_iff, String.eqb_neq. reflexivity.
Qed.

(** A successful call returns the row number of an eligible row that the
    query for difficult recipes keeps, and drops every row with that number;
    the requested difficulty plays no part. *)
Lemma choose_recipe_inv (u : nat) (difficulty : string) (idx : Z)
      (weekmenu_df weekmenu_df' : list Day.t) (eligible eligible' : list Recipe.t)
      (c : string) :
  choose_recipe u difficulty idx weekmenu_df eligible = Ok (c, weekmenu_df', eligible') ->
  (exists r, In r eligible /\ Recipe.row_number r = c /\ Recipe.difficulty r = "difficult")
  /\ eligible' = drop eligible c
  /\ ~ In c (map Recipe.row_number eligible').
Proof.
  unfold choose_recipe.
  destruct (np_random_choice u (candidates eligible)) as [c0|e] eqn:Hc; [|discriminate].
  destruct (loc eligible c0) as [r|]; [|destruct (rows_with_label eligible c0); discriminate].
  intros H. injection H as <- _ <-.
  apply np_random_choice_In in Hc. split; [apply candidates_In, Hc|].
  split; [reflexivity|].
  intros Hin. apply in_map_iff in Hin as [r' [Hr' Hin]].
  apply drop_In in Hin. tauto.
Qed.

(** C1. The requested tier is ignored: asked for an easy recipe from a pool
    that holds an easy and a difficult one, [choose_recipe] returns the
    difficult one, writes its name in the menu and drops it from the pool. *)
Theorem choose_recipe_easy_gets_difficult :
  choose_recipe 0 "easy" 17899
                [Day.mk 17899 (Some "WORK") (Some "SPORT") "Thursday" None None]
                [soup; stew]
  = Ok ("3",
        [Day.mk 17899 (Some "WORK") (Some "SPORT") "Thursday"
                (Some "Stew") (Some "Beef, slow cooked")],
        [soup])
  /\ loc [soup; stew] "3" = Some stew
  /\ Recipe.difficulty stew = "difficult"
  /\ Recipe.difficulty stew <> "easy".
Proof.
  repeat split; try reflexivity. discriminate.
Qed.

(** C5. The candidates are not those of the requested tier: asked for an
    easy recipe, the specification's candidate set is the one easy recipe,
    while [choose_recipe] draws among the difficult ones and returns a recipe
    outside that set. *)
Theorem choose_recipe_outside_spec_candidates :
  spec_candidates "easy" [soup; stew; roast] = ["2"]
  /\ candidates [soup; stew; roast] = ["3"; "4"]
  /\ (forall u, exists c weekmenu_df eligible,
         choose_recipe u "easy" 17899 [] [soup; stew; roast] = Ok (c, weekmenu_df, eligible)
         /\ ~ In c (spec_candidates "easy" [soup; stew; roast])).
Proof.
  split; [reflexivity|]. split; [reflexivity|].
  intros u.
  destruct (choose_recipe u "easy" 17899 [] [soup; stew; roast])
    as [[[c wm] el]|e] eqn:H.
  - exists c, wm, el. split; [reflexivity|].
    apply choose_recipe_inv in H as [[r [Hin [Hr Hd]]] _].
    simpl. intros [<- | []].
    destruct Hin as [<- | [<- | [<- | []]]]; discriminate.
  - exfalso. unfold choose_recipe in H.
    change (candidates [soup; stew; roast]) with ["3"; "4"] in H.
    unfold np_random_choice in H. simpl length in H.
    assert (Hlt : (u mod 2 < 2)%nat) by (apply Nat.mod_upper_bound; lia).
    destruct (u mod 2)%nat as [|[|n]]; simpl in H; try discriminate. lia.
Qed.

(** ** Unfolding calendar events *)

Lemma unfold_events_list_flat_map (today : Z) (events_list : list (Z * Z * string)) :
  unfold_events_list today events_list = flat_map (unfold_event today) events_list.
Proof.
  unfold unfold_events_list.
  enough (H : forall acc,
             fold_left (fun new_events_list e => new_events_list ++ unfold_event today e)
                       events_list acc
             = acc ++ flat_map (unfold_event today) events_list) by apply (H []).
  induction events_list as [|e l IH]; intros acc; simpl.
  - symmetry. apply app_nil_r.
  - rewrite IH, <- app_assoc. reflexivity.
Qed.

(** An event of more than one day is unfolded into the days from its start
    up to, not including, its end that lie between the day of the run and
    six days later. *)
Lemma unfold_event_multi_day (today start end_ : Z) (label : string) :
  end_ - start > 1 ->
  unfold_event today (start, end_, label) = spec_expand today (start, end_, label).
Proof.
  intros Hd. unfold unfold_event, spec_expand.
  destruct (end_ - start >? 1) eqn:E; [|rewrite Z.gtb_ltb, Z.ltb_ge in E; lia].
  induction (range (end_ - start)) as [|d l IH]; simpl; [reflexivity|].
  rewrite IH, Z.geb_leb.
  destruct ((today <=? start + d) && (start + d <=? today + 6)); reflexivity.
Qed.

(** An event of at most one day gives its start day, whatever the window. *)
Lemma unfold_event_single_day (today start end_ : Z) (label : string) :
  end_ - start <= 1 ->
  unfold_event today (start, end_, label) = [(start, label)].
Proof.
  intros Hd. unfold unfold_event.
  destruct (end_ - start >? 1) eqn:E; [|reflexivity].
  rewrite Z.gtb_ltb, Z.ltb_lt in E. lia.
Qed.

(** C6. The window of the unfolding is not the week of the menu. The run of
    2019-01-01 with a menu that ends on 2019-01-02 and a lead time of two days
    plans the week 2019-01-03 .. 2019-01-09. An event from 2019-01-06 to
    2019-01-10 covers four days of that week, but [unfold_events_list] keeps
    the two that are at most six days after the day of the run, and the table
    of the week has no event on the other two. *)
Theorem unfold_events_list_window_is_run_date :
  (17898 - NB_DAYS_BEFORE sample_config <? 17897) = true
  /\ spec_expand (17898 + 1) (17902, 17906, "WORK")
     = [(17902, "WORK"); (17903, "WORK"); (17904, "WORK"); (17905, "WORK")]
  /\ unfold_events_list 17897 [(17902, 17906, "WORK")]
     = [(17902, "WORK"); (17903, "WORK")]
  /\ exists events_df,
       create_events_df (17898 + 1) (17898 + 1 + 6)
         (get_events_by_calendarId 17897
            [{| ev_start := 17902; ev_end := 17906; summary := "Work" |}]
            (ALL_EVENTS sample_config))
         []
       = Ok events_df
       /\ map Day.date events_df = [17899; 17900; 17901; 17902; 17903; 17904; 17905]
       /\ map Day.events_cal_1 events_df
          = [None; None; None; Some "WORK"; Some "WORK"; None; None].
Proof.
  split; [reflexivity|]. split; [reflexivity|]. split; [reflexivity|].
  eexists. split; [vm_compute; reflexivity|]. split; reflexivity.
Qed.

(** ** Publishing the menu *)

Lemma add_weekmenu_to_calendar_spec (weekmenu_df : list Day.t) (calendarId : string)
      (w : world) :
  add_weekmenu_to_calendar weekmenu_df calendarId w
  = (Ok tt,
     mkWorld (recipes_df w) (eligible_recipes w) (sheet_requests w)
             (calendar_requests w ++ map (menu_event calendarId) weekmenu_df) (draws w)).
Proof.
  revert w. induction weekmenu_df as [|r rows IH]; intros w; simpl.
  - rewrite app_nil_r. destruct w; reflexivity.
  - unfold bind. rewrite IH. simpl. rewrite <- app_assoc. reflexivity.
Qed.

(** C10. [add_weekmenu_to_calendar] sends one event per row of the menu, in
    order, after the requests already sent; the start date and the end date
    of each event are both the date of its row, so the end is the start
    itself and not the day after. No request goes to the sheet. *)
Theorem add_weekmenu_to_calendar_same_day (weekmenu_df : list Day.t)
        (calendarId : string) (w : world) :
  exists events,
    add_weekmenu_to_calendar weekmenu_df calendarId w
    = (Ok tt,
       mkWorld (recipes_df w) (eligible_recipes w) (sheet_requests w)
               (calendar_requests w ++ events) (draws w))
    /\ Forall2 (fun r ev =>
                  ins_start_date ev = Date.isoformat (Day.date r)
                  /\ ins_end_date ev = Date.isoformat (Day.date r)
                  /\ ins_end_date ev = ins_start_date ev
                  /\ ins_summary ev = Day.recipe r
                  /\ ins_description ev = Day.description r)
               weekmenu_df events.
Proof.
  exists (map (menu_event calendarId) weekmenu_df).
  split; [apply add_weekmenu_to_calendar_spec|].
  induction weekmenu_df as [|r rows IH]; simpl; constructor; auto.
Qed.

(** ** Classifying the days *)

Lemma str_in_In (x : string) (xs : list string) :
  str_in x xs = true <-> In x xs.
Proof.
  unfold str_in. rewrite existsb_exists. split.
  - intros [y [Hin Heq]]. apply String.eqb_eq in Heq. subst. exact Hin.
  - intros Hin. exists x. split; [exact Hin | apply String.eqb_refl].
Qed.





(** ** Drawing from the pool and recording the draw *)


(** A slot without a tradition is a draw for one of the three tiers. *)
Lemma weekmenu_row_no_tradition (rng : nat -> nat) (SPREADSHEET_ID : string)
      (traditions : gmap string string) (free_events : list string)
      (r : Day.t) (weekmenu_df : list Day.t) :
  traditions !! Day.weekday r = None ->
  exists tier,
    weekmenu_row rng SPREADSHEET_ID traditions free_events r weekmenu_df
    = pick_and_record rng SPREADSHEET_ID tier (Day.date r) weekmenu_df.
Proof.
  intros Hn. unfold weekmenu_row, weekmenu_row_with. rewrite Hn.
  destruct (str_in (Day.weekday r) ["Saturday"; "Sunday"]);
    [exists "difficult"; reflexivity|].
  destruct (in_events (Day.events_cal_1 r) free_events
            || in_events (Day.events_cal_2 r) free_events
            || isnull (Day.events_cal_1 r) || isnull (Day.events_cal_2 r));
    [exists "medium" | exists "easy"]; reflexivity.
Qed.




(** ** No recipe twice in a week *)






(** ** The gate of the script *)

(** C8, as the code has it. When the last day of the previous menu, moved
    back by the lead time, is not before the day of the run, that is when the
    last day is at least the lead time ahead of today, the script prints that
    it stops and ends normally, having sent nothing to the calendar and
    nothing to the sheet. *)
Theorem main_stops_while_menu_active (cfg : config) (rng : nat -> nat)
        (today DATE_LAST_RECIPE : Z) (sheet : list Recipe.t)
        (cal_1 cal_2 : list Api.event) :
  DATE_LAST_RECIPE - NB_DAYS_BEFORE cfg >= today ->
  exists w,
    main cfg rng today DATE_LAST_RECIPE sheet cal_1 cal_2
    = (Printed "Program stopped. Last week menu is not finished yet.", w)
    /\ sheet_requests w = []
    /\ calendar_requests w = [].
Proof.
  intros Hgate. unfold main.
  destruct (get_recipes (PREV_WEEK DATE_LAST_RECIPE) sheet) as [all eligible].
  destruct (DATE_LAST_RECIPE - NB_DAYS_BEFORE cfg <? today) eqn:E.
  - apply Z.ltb_lt in E. lia.
  - eexists. split; [reflexivity|]. split; reflexivity.
Qed.

(** The scenario of the claim: the previous menu ends three days from now
    and the lead time is two days. *)
Lemma main_stops_while_menu_active_witness :
  exists w,
    main sample_config rng0 17897 (17897 + 3) [soup; stew; roast; curry] [] []
    = (Printed "Program stopped. Last week menu is not finished yet.", w)
    /\ sheet_requests w = []
    /\ calendar_requests w = [].
Proof.
  apply (main_stops_while_menu_active sample_config rng0 17897 (17897 + 3)).
  simpl. lia.
Defined.

(** The claim of C8 as it is worded, with the lead time taken off today,
    fails. A menu that ends tomorrow is in the future relative to today minus
    two days, and even relative to today, yet with a lead time of two days the
    script runs and sends the seven days of the new menu to the calendar. *)
Lemma main_runs_within_lead_time :
  17897 + 1 > 17897 - NB_DAYS_BEFORE config_all_traditions
  /\ 17897 + 1 > 17897
  /\ fst (main config_all_traditions rng0 17897 (17897 + 1) [soup; stew] [] [])
     = Printed "Week menu is added to Google Calendar"
  /\ map ins_start_date
         (calendar_requests
            (snd (main config_all_traditions rng0 17897 (17897 + 1) [soup; stew] [] [])))
     = ["2019-01-03"; "2019-01-04"; "2019-01-05"; "2019-01-06"; "2019-01-07";
        "2019-01-08"; "2019-01-09"]
  /\ ~ (forall cfg rng today DATE_LAST_RECIPE sheet cal_1 cal_2,
           DATE_LAST_RECIPE > today - NB_DAYS_BEFORE cfg ->
           calendar_requests (snd (main cfg rng today DATE_LAST_RECIPE sheet cal_1 cal_2))
           = []).
Proof.
  split; [simpl; lia|]. split; [lia|].
  split; [vm_compute; reflexivity|]. split; [vm_compute; reflexivity|].
  intros H.
  specialize (H config_all_traditions rng0 17897 (17897 + 1) [soup; stew] [] []).
  assert (Hpre : 17897 + 1 > 17897 - NB_DAYS_BEFORE config_all_traditions)
    by (simpl; lia).
  specialize (H Hpre). vm_compute in H. discriminate.
Qed.

(** ** The table of the week *)

Lemma existsb_eqb_false (x : Z) (l : list Z) :
  existsb (Z.eqb x) l = false <-> ~ In x l.
Proof.
  induction l as [|y l IH]; simpl.
  - tauto.
  - rewrite orb_false_iff, IH, Z.eqb_neq. intuition congruence.
Qed.

Lemma has_duplicates_false (l : list Z) :
  has_duplicates l = false <-> List.NoDup l.
Proof.
  induction l as [|x l IH]; simpl.
  - split; [constructor | reflexivity].
  - rewrite orb_false_iff, existsb_eqb_false, IH, List.NoDup_cons_iff. reflexivity.
Qed.

(** With one entry per date on the right, a date has at most one partner. *)
Lemma filter_key_unique (df2 : list (Z * string)) (d : Z) :
  List.NoDup (map fst df2) ->
  List.filter (fun r => fst r =? d) df2 = []
  \/ exists r, List.filter (fun r => fst r =? d) df2 = [r].
Proof.
  induction df2 as [|r l IH]; simpl; intros Hnd; [left; reflexivity|].
  apply List.NoDup_cons_iff in Hnd as [Hr Hnd].
  destruct (fst r =? d) eqn:E; [|apply IH, Hnd].
  right. exists r. f_equal.
  destruct (List.filter (fun r0 => fst r0 =? d) l) as [|x xs] eqn:Hf; [reflexivity|].
  exfalso. apply Hr.
  assert (Hx : In x (List.filter (fun r0 => fst r0 =? d) l)) by (rewrite Hf; left; reflexivity).
  apply filter_In in Hx as [Hx Hd]. apply Z.eqb_eq in Hd, E.
  apply in_map_iff. exists x. split; [congruence | exact Hx].
Qed.

Lemma existsb_key (df : list (Z * string)) (d : Z) :
  existsb (fun l => fst l =? d) df = true <-> In d (map fst df).
Proof.
  rewrite existsb_exists, in_map_iff. split.
  - intros [x [Hx E]]. apply Z.eqb_eq in E. exists x. auto.
  - intros [x [E Hx]]. exists x. split; [exact Hx | apply Z.eqb_eq, E].
Qed.

(** What a row of the merged frame says about the two lists. *)
Lemma merge_outer_sound (df1 df2 : list (Z * string)) (r : merged_row) :
  In r (merge_outer df1 df2) ->
  (forall a, snd (fst r) = Some a -> In (row_date r, a) df1)
  /\ (snd (fst r) = None -> ~ In (row_date r) (map fst df1))
  /\ (forall b, snd r = Some b -> In (row_date r, b) df2)
  /\ (snd r = None -> ~ In (row_date r) (map fst df2)).
Proof.
  unfold merge_outer. intros Hin.
  apply in_app_or in Hin as [Hin | Hin]; apply in_flat_map in Hin as [x [Hx Hin]].
  - destruct x as [d a].
    destruct (List.filter (fun r0 => fst r0 =? fst (d, a)) df2) as [|m ms] eqn:Hf.
    + destruct Hin as [<- | []]. unfold row_date; simpl.
      split; [intros a' H; injection H as <-; exact Hx|].
      split; [discriminate|]. split; [discriminate|].
      intros _ Hd. apply in_map_iff in Hd as [y [Hy Hiny]].
      assert (Hy' : In y (List.filter (fun r0 => fst r0 =? fst (d, a)) df2)).
      { apply filter_In. split; [exact Hiny | apply Z.eqb_eq, Hy]. }
      rewrite Hf in Hy'. destruct Hy'.
    + rewrite <- Hf in Hin. apply in_map_iff in Hin as [[d2 b] [<- Hy]].
      apply filter_In in Hy as [Hy Hd]. simpl in Hd. apply Z.eqb_eq in Hd. subst d2.
      unfold row_date; simpl.
      split; [intros a' H; injection H as <-; exact Hx|].
      split; [discriminate|].
      split; [intros b' H; injection H as <-; exact Hy | discriminate].
  - destruct x as [d b].
    destruct (existsb (fun l => fst l =? fst (d, b)) df1) eqn:E; [destruct Hin|].
    destruct Hin as [<- | []]. unfold row_date; simpl.
    split; [discriminate|].
    split; [intros _ Hd; apply existsb_key in Hd; simpl in E; congruence|].
    split; [intros b' H; injection H as <-; exact Hx | discriminate].
Qed.

(** Every date of either list has a row in the merged frame. *)
Lemma merge_outer_complete (df1 df2 : list (Z * string)) (d : Z) :
  In d (map fst df1) \/ In d (map fst df2) ->
  exists r, In r (merge_outer df1 df2) /\ row_date r = d.
Proof.
  assert (Hleft : In d (map fst df1) ->
                  exists r, In r (merge_outer df1 df2) /\ row_date r = d).
  { intros Hd. apply in_map_iff in Hd as [[d1 a] [Hd Hx]]. simpl in Hd. subst d1.
    destruct (List.filter (fun r0 => fst r0 =? d) df2) as [|m ms] eqn:Hf.
    - exists (d, Some a, None). split; [|reflexivity].
      unfold merge_outer. apply in_or_app. left. apply in_flat_map.
      exists (d, a). split; [exact Hx|]. simpl. rewrite Hf. left. reflexivity.
    - exists (d, Some a, Some (snd m)). split; [|reflexivity].
      unfold merge_outer. apply in_or_app. left. apply in_flat_map.
      exists (d, a). split; [exact Hx|]. simpl. rewrite Hf. left. reflexivity. }
  intros [Hd | Hd]; [exact (Hleft Hd)|].
  destruct (existsb (fun l => fst l =? d) df1) eqn:E.
  - apply existsb_key in E. exact (Hleft E).
  - apply in_map_iff in Hd as [[d2 b] [Hd Hx]]. simpl in Hd. subst d2.
    exists (d, None, Some b). split; [|reflexivity].
    unfold merge_outer. apply in_or_app. right. apply in_flat_map.
    exists (d, b). split; [exact Hx|]. simpl. rewrite E. left. reflexivity.
Qed.

Lemma merge_outer_dates (df1 df2 : list (Z * string)) :
  List.NoDup (map fst df2) ->
  map row_date (merge_outer df1 df2)
  = map fst df1
    ++ List.filter (fun d => negb (existsb (fun l => fst l =? d) df1)) (map fst df2).
Proof.
  intros Hnd. unfold merge_outer. rewrite map_app. f_equal.
  - induction df1 as [|l df1 IH]; [reflexivity|].
    cbn [flat_map]. rewrite map_app, IH.
    change (map fst (l :: df1)) with ([fst l] ++ map fst df1). f_equal.
    destruct (filter_key_unique df2 (fst l) Hnd) as [-> | [r ->]]; reflexivity.
  - clear Hnd. induction df2 as [|r df2 IH]; [reflexivity|].
    cbn [flat_map]. rewrite map_app, IH. simpl.
    destruct (existsb (fun l => fst l =? fst r) df1); reflexivity.
Qed.

Lemma merge_outer_NoDup (df1 df2 : list (Z * string)) :
  List.NoDup (map fst df1) -> List.NoDup (map fst df2) ->
  List.NoDup (map row_date (sort_index (merge_outer df1 df2))).
Proof.
  intros H1 H2.
  apply (Permutation_NoDup (l := map row_date (merge_outer df1 df2))).
  - apply Permutation_map, Permutation_sym, sort_by_perm.
  - rewrite (merge_outer_dates df1 df2 H2).
    apply List.NoDup_app; [exact H1 | apply List.NoDup_filter, H2 |].
    intros d Hd Hf. apply filter_In in Hf as [_ Hf].
    apply existsb_key in Hd. rewrite Hd in Hf. discriminate.
Qed.

(** The row that [reindex] gives for the date [d]. *)
Lemma reindex_row (df1 df2 : list (Z * string)) (d : Z) (row : merged_row) :
  List.NoDup (map fst df1) -> List.NoDup (map fst df2) ->
  row = match find (fun r => row_date r =? d) (sort_index (merge_outer df1 df2)) with
        | Some r => r
        | None => (d, None, None)
        end ->
  row_date row = d
  /\ (forall a, snd (fst row) = Some a <-> In (d, a) df1)
  /\ (forall b, snd row = Some b <-> In (d, b) df2).
Proof.
  intros H1 H2 ->.
  assert (Hperm : forall r, In r (sort_index (merge_outer df1 df2))
                            <-> In r (merge_outer df1 df2)).
  { intros r. split; apply Permutation_in;
      [apply sort_by_perm | apply Permutation_sym, sort_by_perm]. }
  assert (Hkey : forall (df : list (Z * string)) x y,
             List.NoDup (map fst df) -> In (d, x) df -> In (d, y) df -> x = y).
  { intros df x y. induction df as [|[k v] df IH]; simpl; intros Hnd Hx Hy; [tauto|].
    apply List.NoDup_cons_iff in Hnd as [Hk Hnd].
    destruct Hx as [Hx | Hx], Hy as [Hy | Hy]; try congruence; auto.
    - injection Hx as -> ->. exfalso. apply Hk.
      apply in_map_iff. exists (d, y). auto.
    - injection Hy as -> ->. exfalso. apply Hk.
      apply in_map_iff. exists (d, x). auto. }
  destruct (find (fun r => row_date r =? d) (sort_index (merge_outer df1 df2)))
    as [r|] eqn:Hfind.
  - apply find_some in Hfind as [Hin Hd]. apply Z.eqb_eq in Hd.
    apply Hperm, merge_outer_sound in Hin as [Ha [Hna [Hb Hnb]]].
    rewrite Hd in Ha, Hna, Hb, Hnb.
    split; [exact Hd|]. split.
    + intros a. split; [apply Ha|]. intros Hin.
      destruct (snd (fst r)) as [a'|].
      * f_equal. apply (Hkey df1); auto.
      * exfalso. apply Hna; [reflexivity|]. apply in_map_iff. exists (d, a). auto.
    + intros b. split; [apply Hb|]. intros Hin.
      destruct (snd r) as [b'|].
      * f_equal. apply (Hkey df2); auto.
      * exfalso. apply Hnb; [reflexivity|]. apply in_map_iff. exists (d, b). auto.
  - assert (Hnone : forall x, In (d, x) df1 \/ In (d, x) df2 -> False).
    { intros x Hx.
      destruct (merge_outer_complete df1 df2 d) as [r [Hr Hd]].
      - destruct Hx as [Hx | Hx]; [left | right]; apply in_map_iff; exists (d, x); auto.
      - apply Hperm in Hr. apply (find_none _ _ Hfind) in Hr.
        apply Z.eqb_neq in Hr. contradiction. }
    split; [reflexivity|]. simpl.
    split; intros x; (split; [discriminate | intros Hx; exfalso; apply (Hnone x); auto]).
Qed.

Lemma period_range_week (START_DAY : Z) :
  period_range START_DAY (START_DAY + 6)
  = [START_DAY; START_DAY + 1; START_DAY + 2; START_DAY + 3;
     START_DAY + 4; START_DAY + 5; START_DAY + 6].
Proof.
  unfold period_range.
  replace (START_DAY + 6 - START_DAY + 1) with 7 by lia.
  change (range 7) with [0; 1; 2; 3; 4; 5; 6]. simpl.
  rewrite Z.add_0_r. reflexivity.
Qed.

(** C7, as the code has it. When neither list names a date twice, the table
    has seven rows, for the seven days from [START_DAY] on in ascending order;
    each row carries the weekday of its date, the label that the first list
    gives for the date in the first column and the one of the second list in
    the second, and no label where the list has none. *)
Theorem create_events_df_week (START_DAY : Z)
        (events_list_1 events_list_2 : list (Z * string)) :
  List.NoDup (map fst events_list_1) ->
  List.NoDup (map fst events_list_2) ->
  exists events_df,
    create_events_df START_DAY (START_DAY + 6) events_list_1 events_list_2 = Ok events_df
    /\ length events_df = 7%nat
    /\ map Day.date events_df
       = [START_DAY; START_DAY + 1; START_DAY + 2; START_DAY + 3;
          START_DAY + 4; START_DAY + 5; START_DAY + 6]
    /\ (forall row, In row events_df ->
          Day.weekday row = Date.day_name ((Day.date row + 3) mod 7)
          /\ (forall label, Day.events_cal_1 row = Some label
                            <-> In (Day.date row, label) events_list_1)
          /\ (forall label, Day.events_cal_2 row = Some label
                            <-> In (Day.date row, label) events_list_2)
          /\ (~ In (Day.date row) (map fst events_list_1) -> Day.events_cal_1 row = None)
          /\ (~ In (Day.date row) (map fst events_list_2) -> Day.events_cal_2 row = None)).
Proof.
  intros H1 H2. unfold create_events_df, reindex.
  rewrite (proj2 (has_duplicates_false _) (merge_outer_NoDup _ _ H1 H2)).
  rewrite period_range_week.
  eexists. split; [reflexivity|]. split; [reflexivity|].
  split.
  - rewrite !map_map. cbn [map].
    repeat match goal with
           | |- context [find ?f ?l] =>
               rewrite (proj1 (reindex_row events_list_1 events_list_2 _ _ H1 H2
                                 (eq_refl (match find f l with
                                           | Some r => r
                                           | None => _
                                           end))))
           end.
    reflexivity.
  - intros row Hin. apply in_map_iff in Hin as [m [<- Hin]].
    apply in_map_iff in Hin as [d [Hm _]]. symmetry in Hm.
    destruct (reindex_row events_list_1 events_list_2 d m H1 H2 Hm) as [Hd [Ha Hb]].
    cbn [Day.weekday Day.date Day.events_cal_1 Day.events_cal_2].
    rewrite Hd. split; [reflexivity|]. split; [exact Ha|]. split; [exact Hb|].
    split.
    + intros Hn. destruct (snd (fst m)) as [a|] eqn:E; [|reflexivity].
      exfalso. apply Hn. apply in_map_iff. exists (d, a). split; [reflexivity|].
      apply Ha. reflexivity.
    + intros Hn. destruct (snd m) as [b|] eqn:E; [|reflexivity].
      exfalso. apply Hn. apply in_map_iff. exists (d, b). split; [reflexivity|].
      apply Hb. reflexivity.
Qed.

Lemma create_events_df_week_witness :
  exists events_df,
    create_events_df 17899 (17899 + 6)
                     [(17902, "WORK"); (17903, "WORK")] [(17903, "HOME")]
    = Ok events_df
    /\ length events_df = 7%nat
    /\ map Day.date events_df
       = [17899; 17899 + 1; 17899 + 2; 17899 + 3; 17899 + 4; 17899 + 5; 17899 + 6].
Proof.
  destruct (create_events_df_week 17899 [(17902, "WORK"); (17903, "WORK")]
                                  [(17903, "HOME")])
    as [events_df [H [Hlen [Hdates _]]]].
  - apply has_duplicates_false. reflexivity.
  - apply has_duplicates_false. reflexivity.
  - exists events_df. auto.
Defined.

(** The claim of C7 fails for lists that name a date twice. Two labelled
    events of the first calendar on 2019-01-06 give a list with that date
    twice; the merged frame then has two rows for the date, [reindex] raises,
    and there is no table. *)
Lemma create_events_df_duplicate_date :
  get_events_by_calendarId 17899
    [{| ev_start := 17902; ev_end := 17903; summary := "Work" |};
     {| ev_start := 17902; ev_end := 17903; summary := "Sport" |}]
    (ALL_EVENTS sample_config)
  = [(17902, "WORK"); (17902, "SPORT")]
  /\ create_events_df 17899 (17899 + 6) [(17902, "WORK"); (17902, "SPORT")] []
     = Raise (ValueError "cannot reindex on an axis with duplicate labels")
  /\ ~ (forall START_DAY events_list_1 events_list_2,
           exists events_df,
             create_events_df START_DAY (START_DAY + 6) events_list_1 events_list_2
             = Ok events_df
             /\ length events_df = 7%nat).
Proof.
  split; [reflexivity|]. split; [reflexivity|].
  intros H.
  destruct (H 17899 [(17902, "WORK"); (17902, "SPORT")] []) as [events_df [Heq _]].
  vm_compute in Heq. discriminate.
Qed.

(** ** The draw among the difficult recipes *)

Lemma na_first_le_total (a b : option Z) :
  na_first_le a b = false -> na_first_le b a = true.
Proof.
  destruct a as [x|], b as [y|]; simpl; try congruence.
  rewrite Z.leb_gt, Z.leb_le. lia.
Qed.

Lemma insert_by_sorted (x : Recipe.t) (l : list Recipe.t) :
  Sorted (fun a b => na_first_le (Recipe.last_date_on_menu a)
                                 (Recipe.last_date_on_menu b) = true) l ->
  Sorted (fun a b => na_first_le (Recipe.last_date_on_menu a)
                                 (Recipe.last_date_on_menu b) = true)
         (insert_by (fun a b => na_first_le (Recipe.last_date_on_menu a)
                                            (Recipe.last_date_on_menu b)) x l).
Proof.
  induction 1 as [|y l Hs IH Hhd]; simpl.
  - repeat constructor.
  - destruct (na_first_le (Recipe.last_date_on_menu x) (Recipe.last_date_on_menu y)) eqn:E.
    + repeat constructor; auto.
    + constructor; [exact IH|].
      apply na_first_le_total in E.
      destruct Hhd as [|z l' Hz]; simpl.
      * constructor. exact E.
      * destruct (na_first_le (Recipe.last_date_on_menu x) (Recipe.last_date_on_menu z));
          constructor; auto.
Qed.

(** [sort_values] orders the frame by last date, rows without a date first,
    and keeps its rows. *)
Lemma sort_values_last_date_sorted (df : list Recipe.t) :
  Sorted (fun a b => na_first_le (Recipe.last_date_on_menu a)
                                 (Recipe.last_date_on_menu b) = true)
         (sort_values_last_date df)
  /\ Permutation (sort_values_last_date df) df.
Proof.
  split; [|apply sort_by_perm].
  unfold sort_values_last_date, sort_by.
  induction df as [|x df IH]; simpl; [constructor | apply insert_by_sorted, IH].
Qed.

(** For a request of the difficult tier the candidates of the code are those
    of the specification. *)
Lemma candidates_difficult (eligible : list Recipe.t) :
  candidates eligible = spec_candidates "difficult" eligible.
Proof. reflexivity. Qed.

Lemma candidates_at_most_five (eligible : list Recipe.t) :
  (length (candidates eligible) <= 5)%nat
  /\ ((length (query_difficult eligible) <= 5)%nat ->
      length (candidates eligible) = length (query_difficult eligible)).
Proof.
  unfold candidates, sort_values_last_date. rewrite length_firstn, length_map.
  rewrite (Permutation_length (sort_by_perm _ (query_difficult eligible))). lia.
Qed.

(** The draw is uniform: each candidate is the outcome of exactly one of the
    equally likely positions, provided the row numbers are distinct. *)
Lemma np_random_choice_uniform (a : list string) (c : string) :
  List.NoDup a -> In c a ->
  exists k, (k < length a)%nat /\ np_random_choice k a = Ok c
            /\ forall k', (k' < length a)%nat -> np_random_choice k' a = Ok c -> k' = k.
Proof.
  intros Hnd Hin.
  destruct (In_nth a c "" Hin) as [k [Hk Hc]].
  assert (Hchoice : forall j, (j < length a)%nat ->
                              np_random_choice j a = Ok (nth j a "")).
  { intros j Hj. unfold np_random_choice. destruct a as [|x a'] eqn:E.
    - simpl in Hj. lia.
    - rewrite <- E in *. rewrite Nat.mod_small by exact Hj. reflexivity. }
  exists k. split; [exact Hk|]. split; [rewrite Hchoice, Hc; auto|].
  intros k' Hk' H. rewrite (Hchoice k' Hk') in H. injection H as H.
  apply (proj1 (List.NoDup_nth a "") Hnd); auto. congruence.
Qed.


(** * Further properties of the code *)

(** ** Dates as text *)

Lemma all_from_spec (f : Z -> bool) (fuel : nat) :
  forall k, all_from fuel k f = true ->
            forall j, k <= j < k + Z.of_nat fuel -> f j = true.
Proof.
  induction fuel as [|n IH]; intros k H j Hj.
  - lia.
  - simpl in H. destruct (f k) eqn:Hk; [|discriminate].
    destruct (Z.eq_dec j k) as [-> | Hne]; [exact Hk|].
    apply (IH (k + 1) H). lia.
Qed.

Lemma is_leap_spec (year : Z) :
  Strptime.is_leap year = true
  <-> year mod 4 = 0 /\ (year mod 100 <> 0 \/ year mod 400 = 0).
Proof.
  unfold Strptime.is_leap.
  rewrite andb_true_iff, orb_true_iff, negb_true_iff, !Z.eqb_eq, Z.eqb_neq.
  reflexivity.
Qed.

(** The year within the cycle of four hundred years that begins on a first
    of March, and the day within that year. *)
Lemma civil_year_of_era (doe : Z) :
  0 <= doe < 146097 ->
  let yoe := (doe - doe / 1460 + doe / 36524 - doe / 146096) / 365 in
  let doy := doe - (365 * yoe + yoe / 4 - yoe / 100) in
  0 <= yoe <= 399 /\ 0 <= doy <= 365
  /\ (doy = 365 ->
      (yoe + 1) mod 4 = 0 /\ ((yoe + 1) mod 100 <> 0 \/ (yoe + 1) mod 400 = 0)).
Proof.
  intros H yoe doy. subst doy yoe. Z.div_mod_to_equations. lia.
Qed.

(** The month and the day of the month from the day of a year that begins on
    the first of March. *)
Lemma civil_month_day (doy : Z) :
  0 <= doy <= 365 ->
  let mp := (5 * doy + 2) / 153 in
  let d := doy - (153 * mp + 2) / 5 + 1 in
  let m := if mp <? 10 then mp + 3 else mp - 9 in
  1 <= m <= 12 /\ 1 <= d
  /\ (d <= Strptime.days_in_month 1 m \/ (doy = 365 /\ m = 2 /\ d = 29))
  /\ (m <= 2 <-> 306 <= doy)
  /\ Strptime.days_before_month 1 m + d = (if m <=? 2 then doy - 305 else doy + 60).
Proof.
  intros Hdoy.
  assert (H : all_from 366 0
                (fun doy =>
                   let mp := (5 * doy + 2) / 153 in
                   let d := doy - (153 * mp + 2) / 5 + 1 in
                   let m := if mp <? 10 then mp + 3 else mp - 9 in
                   (1 <=? m) && (m <=? 12) && (1 <=? d)
                   && ((d <=? Strptime.days_in_month 1 m)
                       || ((doy =? 365) && (m =? 2) && (d =? 29)))
                   && (Bool.eqb (m <=? 2) (306 <=? doy))
                   && (Strptime.days_before_month 1 m + d
                       =? (if m <=? 2 then doy - 305 else doy + 60))) = true)
    by (vm_compute; reflexivity).
  pose proof (all_from_spec _ _ _ H doy) as Hc. cbv beta zeta in Hc |- *.
  set (mp := (5 * doy + 2) / 153) in *.
  set (d := doy - (153 * mp + 2) / 5 + 1) in *.
  set (m := if mp <? 10 then mp + 3 else mp - 9) in *.
  assert (Hr : 0 <= doy < 0 + Z.of_nat 366) by lia.
  specialize (Hc Hr).
  rewrite !andb_true_iff, orb_true_iff, !andb_true_iff, !Z.leb_le, !Z.eqb_eq,
    Bool.eqb_true_iff in Hc.
  destruct Hc as [[[[[H1 H2] H3] H4] H5] H6].
  split; [lia|]. split; [lia|]. split; [tauto|]. split; [|exact H6].
  rewrite <- !Z.leb_le, H5. reflexivity.
Qed.

Lemma days_in_month_year (year month : Z) :
  Strptime.days_in_month 1 month <= Strptime.days_in_month year month
  /\ (Strptime.is_leap year = true -> Strptime.days_in_month year 2 = 29).
Proof.
  split.
  - destruct (Z.eq_dec month 2) as [-> | Hne].
    + unfold Strptime.days_in_month. destruct (Strptime.is_leap year); simpl; lia.
    + assert (Heq : Strptime.days_in_month year month = Strptime.days_in_month 1 month).
      { unfold Strptime.days_in_month.
        destruct month as [|p|p]; try reflexivity.
        do 4 (try destruct p as [p|p|]); try reflexivity. contradiction. }
      lia.
  - intros H. unfold Strptime.days_in_month. rewrite H. reflexivity.
Qed.

Lemma days_before_month_year (year month : Z) :
  Strptime.days_before_month year month
  = Strptime.days_before_month 1 month
    + (if (month >? 2) && Strptime.is_leap year then 1 else 0).
Proof.
  unfold Strptime.days_before_month.
  change (Strptime.is_leap 1) with false. rewrite andb_false_r. lia.
Qed.

(** [civil] gives a date of the calendar, and that date has the day number
    it was computed from. *)
Lemma civil_valid (n : Z) :
  let '(y, m, d) := Date.civil n in
  1 <= m <= 12 /\ 1 <= d <= Strptime.days_in_month y m
  /\ Strptime.of_ymd y m d = n.
Proof.
  unfold Date.civil. cbv zeta.
  remember ((n + 719468) / 146097) as era eqn:Hera.
  remember (n + 719468 - era * 146097) as doe eqn:Hdoe.
  assert (Hrange : 0 <= doe < 146097) by (subst doe era; Z.div_mod_to_equations; lia).
  pose proof (civil_year_of_era doe Hrange) as HA. cbv zeta in HA.
  remember ((doe - doe / 1460 + doe / 36524 - doe / 146096) / 365) as yoe eqn:Hyoe.
  remember (doe - (365 * yoe + yoe / 4 - yoe / 100)) as doy eqn:Hdoy.
  destruct HA as [Hy [Hd Hleap]].
  pose proof (civil_month_day doy Hd) as HB. cbv zeta in HB.
  remember ((5 * doy + 2) / 153) as mp eqn:Hmp.
  remember (doy - (153 * mp + 2) / 5 + 1) as d eqn:Hdd.
  remember (if mp <? 10 then mp + 3 else mp - 9) as m eqn:Hm.
  destruct HB as [Hm1 [Hd1 [Hdim [Hjan Hbefore]]]].
  clear Hmp Hdd Hm Hyoe Hera.
  remember (yoe + era * 400 + (if m <=? 2 then 1 else 0)) as y eqn:Hyear.
  pose proof (days_in_month_year y m) as [Hge Hfeb].
  split; [exact Hm1|]. split.
  - split; [exact Hd1|].
    destruct Hdim as [Hdim | [H365 [-> ->]]]; [lia|].
    rewrite Hfeb; [lia|]. apply is_leap_spec.
    specialize (Hleap H365). simpl in Hyear. subst y.
    clear - Hleap Hy. Z.div_mod_to_equations. lia.
  - unfold Strptime.of_ymd, Strptime.ymd2ord.
    rewrite days_before_month_year. unfold Strptime.days_before_year.
    destruct (m <=? 2) eqn:Em.
    + apply Z.leb_le in Em.
      replace (m >? 2) with false by (symmetry; rewrite Z.gtb_ltb; apply Z.ltb_ge; lia).
      simpl andb. cbv iota. subst y.
      clear - Hbefore Hdoy Hdoe Hy. Z.div_mod_to_equations. lia.
    + apply Z.leb_gt in Em.
      replace (m >? 2) with true by (symmetry; rewrite Z.gtb_ltb; apply Z.ltb_lt; lia).
      simpl andb.
      destruct (Strptime.is_leap y) eqn:El.
      * apply is_leap_spec in El. subst y.
        clear - Hbefore Hdoy Hdoe Hy El. Z.div_mod_to_equations. lia.
      * assert (Hn : ~ (y mod 4 = 0 /\ (y mod 100 <> 0 \/ y mod 400 = 0))).
        { intros H. apply is_leap_spec in H. congruence. }
        subst y. clear - Hbefore Hdoy Hdoe Hy Hn. Z.div_mod_to_equations. lia.
Qed.

Lemma digit_value_digit (n : Z) :
  Strptime.in_range 48 57 (Date.digit n) = true
  /\ Strptime.digit_value (Date.digit n) = n mod 10.
Proof.
  unfold Date.digit.
  assert (Hr : 0 <= n mod 10 < 10) by (apply Z.mod_pos_bound; lia).
  remember (n mod 10) as r eqn:E. clear E.
  assert (Hcases : r = 0 \/ r = 1 \/ r = 2 \/ r = 3 \/ r = 4 \/ r = 5 \/ r = 6
                   \/ r = 7 \/ r = 8 \/ r = 9) by lia.
  repeat (destruct Hcases as [-> | Hcases]; [split; reflexivity|]).
  subst r. split; reflexivity.
Qed.

Lemma days_in_month_le_31 (year month : Z) :
  Strptime.days_in_month year month <= 31.
Proof.
  unfold Strptime.days_in_month.
  destruct month as [|p|p]; try lia.
  do 4 (try destruct p as [p|p|]); try lia.
  destruct (Strptime.is_leap year); lia.
Qed.

Lemma days_before_month_bounds (year month : Z) :
  0 <= Strptime.days_before_month year month <= 335.
Proof.
  unfold Strptime.days_before_month.
  destruct ((month >? 2) && Strptime.is_leap year);
    destruct month as [|p|p]; try lia;
    do 4 (try destruct p as [p|p|]); lia.
Qed.

(** The text of a month and a day of one or two digits each, as [isoformat]
    writes them, is read back as that month and that day. *)
Lemma matches_md_zfill (m d : Z) :
  1 <= m <= 12 -> 1 <= d <= 31 ->
  exists others,
    Strptime.matches_md ("-" ++ Date.zfill 2 m ++ "-" ++ Date.zfill 2 d)%string
    = (m, d, EmptyString) :: others.
Proof.
  intros Hm Hd.
  assert (H : all_from 12 1
                (fun m =>
                   all_from 31 1
                     (fun d =>
                        match Strptime.matches_md
                                ("-" ++ Date.zfill 2 m ++ "-" ++ Date.zfill 2 d)%string with
                        | (m', d', EmptyString) :: _ => (m' =? m) && (d' =? d)
                        | _ => false
                        end)) = true)
    by (vm_compute; reflexivity).
  pose proof (all_from_spec _ _ _ H m ltac:(lia)) as H1. cbv beta in H1.
  pose proof (all_from_spec _ _ _ H1 d ltac:(lia)) as H2. cbv beta in H2.
  destruct (Strptime.matches_md ("-" ++ Date.zfill 2 m ++ "-" ++ Date.zfill 2 d)%string)
    as [|[[m' d'] [|c rest]] others]; try discriminate.
  apply andb_true_iff in H2 as [Em Ed].
  apply Z.eqb_eq in Em, Ed. subst. eexists. reflexivity.
Qed.

(** A date of the calendar written as YYYY-MM-DD is read back by [strptime]. *)
Lemma strptime_zfill (y m d : Z) :
  1 <= y <= 9999 -> 1 <= m <= 12 -> 1 <= d <= Strptime.days_in_month y m ->
  Strptime.strptime
    (Date.zfill 4 y ++ "-" ++ Date.zfill 2 m ++ "-" ++ Date.zfill 2 d)%string
  = Ok (Strptime.of_ymd y m d).
Proof.
  intros Hy Hm Hd.
  pose proof (days_in_month_le_31 y m) as H31.
  destruct (matches_md_zfill m d Hm ltac:(lia)) as [others Hmd].
  change (Date.zfill 4 y ++ "-" ++ Date.zfill 2 m ++ "-" ++ Date.zfill 2 d)%string
    with (String (Date.digit (y / 10 / 10 / 10))
            (String (Date.digit (y / 10 / 10))
               (String (Date.digit (y / 10))
                  (String (Date.digit y)
                     ("-" ++ Date.zfill 2 m ++ "-" ++ Date.zfill 2 d)%string)))).
  unfold Strptime.strptime, Strptime.matches, Strptime.match_Y.
  destruct (digit_value_digit (y / 10 / 10 / 10)) as [-> ->].
  destruct (digit_value_digit (y / 10 / 10)) as [-> ->].
  destruct (digit_value_digit (y / 10)) as [-> ->].
  destruct (digit_value_digit y) as [-> ->].
  cbn [andb flat_map app]. rewrite Hmd. cbn [map app].
  assert (Hval : 1000 * (y / 10 / 10 / 10 mod 10) + 100 * (y / 10 / 10 mod 10)
                 + 10 * (y / 10 mod 10) + y mod 10 = y)
    by (Z.div_mod_to_equations; lia).
  rewrite Hval.
  replace (y <? 1) with false by (symmetry; apply Z.ltb_ge; lia).
  replace (d >? Strptime.days_in_month y m) with false
    by (symmetry; rewrite Z.gtb_ltb; apply Z.ltb_ge; lia).
  reflexivity.
Qed.

(** Reading back the ISO text of a day number in the range of Python's dates. *)
Lemma strptime_isoformat_range (n : Z) :
  -719162 <= n <= 2932896 ->
  Strptime.strptime (Date.isoformat n) = Ok n.
Proof.
  intros Hn. unfold Date.isoformat.
  pose proof (civil_valid n) as Hc.
  destruct (Date.civil n) as [[y m] d]. destruct Hc as [Hm [Hd Hord]].
  rewrite strptime_zfill; [congruence| |exact Hm|exact Hd].
  pose proof (days_before_month_bounds y m) as Hb.
  pose proof (days_in_month_le_31 y m) as H31.
  unfold Strptime.of_ymd, Strptime.ymd2ord, Strptime.days_before_year in Hord.
  clear - Hn Hord Hb H31 Hd. Z.div_mod_to_equations. lia.
Qed.

(** X1. Every date that Python can represent, from 0001-01-01 to 9999-12-31,
    is read back from its ISO text: [strptime] with the format of the script
    inverts [isoformat]. *)
Theorem strptime_isoformat (n : Z) :
  -719162 <= n <= 2932896 ->
  Strptime.strptime (Date.isoformat n) = Ok n.
Proof. exact (strptime_isoformat_range n). Qed.

Lemma strptime_isoformat_witness :
  Strptime.strptime (Date.isoformat 17897) = Ok 17897.
Proof. apply strptime_isoformat. lia. Defined.

Lemma isoformat_ten (n : Z) : str_prefix 10 (Date.isoformat n) = Date.isoformat n.
Proof. unfold Date.isoformat. destruct (Date.civil n) as [[y m] d]. reflexivity. Qed.

Lemma strptime_date_isoformat (n : Z) :
  is_date n -> strptime_date (Some (Date.isoformat n)) = Done n.
Proof.
  intros H. unfold strptime_date. rewrite (strptime_isoformat_range n H). reflexivity.
Qed.

(** ** The calendar code on listed events *)

Lemma unfold_loop_all_day (today : Z) (events : list gcal_event) :
  Forall (fun e => is_date (ev_start e) /\ is_date (ev_end e)) events ->
  forall acc,
    Api.unfold_loop today
      (map (fun e => (Some (Date.isoformat (ev_start e)),
                      Some (Date.isoformat (ev_end e)), upper (summary e))) events)
      acc
    = Done (acc ++ flat_map (unfold_event today)
                            (map (fun e => (ev_start e, ev_end e, upper (summary e))) events)).
Proof.
  induction 1 as [|e l [Hs He] Hl IH]; intros acc.
  - cbn [map flat_map Api.unfold_loop]. rewrite app_nil_r. reflexivity.
  - cbn [map flat_map Api.unfold_loop fst snd].
    rewrite (strptime_date_isoformat _ Hs), (strptime_date_isoformat _ He).
    rewrite IH, <- app_assoc. reflexivity.
Qed.

Lemma events_list_all_day (events : list gcal_event) (allEvents : list string) :
  Api.events_list (map all_day events) allEvents
  = Done (map (fun e => (Some (Date.isoformat (ev_start e)),
                         Some (Date.isoformat (ev_end e)), upper (summary e)))
              (List.filter (fun e => str_in (upper (summary e)) allEvents) events)).
Proof.
  induction events as [|e l IH]; [reflexivity|].
  cbn [map Api.events_list List.filter all_day Api.summary Api.get_event_date
       Api.start Api.end_ Api.dateTime Api.date].
  destruct (str_in (upper (summary e)) allEvents); rewrite IH; reflexivity.
Qed.

(** X2. On all-day events with representable dates, the code that reads the
    events as the service lists them, dates as text, gives the list that
    [get_events_by_calendarId] gives on the dates themselves: nothing is
    raised, and every date is read back as it was written. *)
Theorem api_get_events_all_day (today : Z) (events : list gcal_event)
        (allEvents : list string) :
  Forall (fun e => is_date (ev_start e) /\ is_date (ev_end e)) events ->
  Api.get_events_by_calendarId today (map all_day events) allEvents
  = Done (get_events_by_calendarId today events allEvents).
Proof.
  intros Hdates.
  unfold Api.get_events_by_calendarId, Api.unfold_events_list, get_events_by_calendarId.
  rewrite events_list_all_day, unfold_events_list_flat_map.
  rewrite unfold_loop_all_day; [reflexivity|].
  apply List.Forall_forall. intros e He. apply filter_In in He as [He _].
  exact (proj1 (List.Forall_forall _ _) Hdates e He).
Qed.

Lemma api_get_events_all_day_witness :
  Api.get_events_by_calendarId 17897
    (map all_day [{| ev_start := 17902; ev_end := 17906; summary := "Work" |}])
    ["WORK"]
  = Done (get_events_by_calendarId 17897
            [{| ev_start := 17902; ev_end := 17906; summary := "Work" |}] ["WORK"]).
Proof.
  apply api_get_events_all_day.
  repeat constructor; unfold is_date; simpl; lia.
Defined.

(** What the matcher leaves is what it was given less the characters read. *)
Lemma match_Y_length (s r : string) (y : Z) :
  In (y, r) (Strptime.match_Y s) -> String.length s = (4 + String.length r)%nat.
Proof.
  unfold Strptime.match_Y.
  destruct s as [|a [|b [|c [|d rest]]]]; simpl; try tauto.
  destruct (Strptime.in_range 48 57 a && Strptime.in_range 48 57 b
            && Strptime.in_range 48 57 c && Strptime.in_range 48 57 d); simpl; [|tauto].
  intros [H | []]. injection H as _ <-. reflexivity.
Qed.

Lemma match_dash_length (s r : string) :
  In r (Strptime.match_dash s) -> String.length s = (1 + String.length r)%nat.
Proof.
  unfold Strptime.match_dash. destruct s as [|c rest]; simpl; [tauto|].
  destruct (Ascii.eqb c "-"); simpl; [|tauto]. intros [<- | []]. reflexivity.
Qed.

Lemma two_chars_length (c : ascii) (lo hi : nat) (s r : string) (v : Z) :
  In (v, r) (Strptime.two_chars c lo hi s) -> String.length s = (2 + String.length r)%nat.
Proof.
  unfold Strptime.two_chars. destruct s as [|a [|b rest]]; simpl; try tauto.
  destruct (Ascii.eqb a c && Strptime.in_range lo hi b); simpl; [|tauto].
  intros [H | []]. injection H as _ <-. reflexivity.
Qed.

Lemma one_char_length (s r : string) (v : Z) :
  In (v, r) (Strptime.one_char s) -> String.length s = (1 + String.length r)%nat.
Proof.
  unfold Strptime.one_char. destruct s as [|a rest]; simpl; [tauto|].
  destruct (Strptime.in_range 49 57 a); simpl; [|tauto].
  intros [H | []]. injection H as _ <-. reflexivity.
Qed.

Lemma match_m_length (s r : string) (v : Z) :
  In (v, r) (Strptime.match_m s) -> (String.length s <= 2 + String.length r)%nat.
Proof.
  unfold Strptime.match_m. intros H.
  repeat (apply in_app_or in H as [H | H]);
    first [apply two_chars_length in H | apply one_char_length in H]; lia.
Qed.

Lemma match_d_length (s r : string) (v : Z) :
  In (v, r) (Strptime.match_d s) -> (String.length s <= 2 + String.length r)%nat.
Proof.
  unfold Strptime.match_d. intros H.
  repeat (apply in_app_or in H as [H | H]);
    try (first [apply two_chars_length in H | apply one_char_length in H]; lia).
  destruct s as [|a rest]; [destruct H|].
  destruct (Ascii.eqb a " "); [|destruct H].
  apply one_char_length in H. simpl. lia.
Qed.

Lemma matches_length (s r : string) (y m d : Z) :
  In (y, m, d, r) (Strptime.matches s) -> (String.length s <= 10 + String.length r)%nat.
Proof.
  unfold Strptime.matches, Strptime.matches_md. intros H.
  apply in_flat_map in H as [[y' s1] [HY H]].
  apply in_map_iff in H as [[[m' d'] s5] [Heq H]]. injection Heq as _ _ _ ->.
  apply in_flat_map in H as [s2 [H1 H]].
  apply in_flat_map in H as [[m'' s3] [Hm H]].
  apply in_flat_map in H as [s4 [H2 H]].
  apply in_map_iff in H as [[d'' s5] [Heq Hd]]. injection Heq as _ _ ->.
  apply match_Y_length in HY. apply match_dash_length in H1, H2.
  apply match_m_length in Hm. apply match_d_length in Hd. lia.
Qed.

(** No text of more than ten characters is a date for [strptime]. *)
Lemma strptime_long (s : string) :
  (10 < String.length s)%nat -> exists e, Strptime.strptime s = Raise e.
Proof.
  intros Hlen. unfold Strptime.strptime.
  destruct (Strptime.matches s) as [|[[[y m] d] [|c rest]] others] eqn:Hm.
  - eexists. reflexivity.
  - exfalso.
    assert (Hin : In (y, m, d, EmptyString) (Strptime.matches s))
      by (rewrite Hm; left; reflexivity).
    apply matches_length in Hin. simpl in Hin. lia.
  - eexists. reflexivity.
Qed.

(** The comprehension raises nothing but [KeyError]; when it raises nothing,
    every event has a summary, and every event with a listed label gives a
    tuple with the dates that [get_event_date] extracts. *)
Lemma events_list_inv (events : list Api.event) (allEvents : list string) :
  match Api.events_list events allEvents with
  | Fail x => exists k, x = Exn (KeyError k)
  | Done l =>
      forall e, In e events ->
        exists s, Api.summary e = Some s
                  /\ (str_in (upper s) allEvents = true ->
                      exists a b, Api.get_event_date e Api.at_start = Done a
                                  /\ Api.get_event_date e Api.at_end = Done b
                                  /\ In (a, b, upper s) l)
  end.
Proof.
  induction events as [|e rest IH]; [intros e []|].
  cbn [Api.events_list].
  destruct (Api.summary e) as [s|] eqn:Hs; [|eexists; reflexivity].
  assert (Hget : forall t, match Api.get_event_date e t with
                           | Fail x => exists k, x = Exn (KeyError k)
                           | Done _ => True
                           end).
  { intros t. unfold Api.get_event_date.
    destruct (match t with Api.at_start => Api.start e | Api.at_end => Api.end_ e end);
      [exact I | eexists; reflexivity]. }
  destruct (str_in (upper s) allEvents) eqn:Hin.
  - pose proof (Hget Api.at_start) as H1. pose proof (Hget Api.at_end) as H2.
    destruct (Api.get_event_date e Api.at_start) as [a|x] eqn:Ea; [|exact H1].
    destruct (Api.get_event_date e Api.at_end) as [b|x] eqn:Eb; [|exact H2].
    destruct (Api.events_list rest allEvents) as [l|x]; [|exact IH].
    intros e' [<- | He'].
    + exists s. split; [exact Hs|]. intros _. exists a, b.
      split; [exact Ea|]. split; [exact Eb|]. left. reflexivity.
    + destruct (IH e' He') as [s' [Hs' Hl]]. exists s'. split; [exact Hs'|].
      intros Hall. destruct (Hl Hall) as [a' [b' [Ha [Hb Hin']]]].
      exists a', b'. repeat split; auto. right. exact Hin'.
  - destruct (Api.events_list rest allEvents) as [l|x]; [|exact IH].
    intros e' [<- | He'].
    + exists s. split; [exact Hs|]. rewrite Hin. discriminate.
    + exact (IH e' He').
Qed.

Lemma unfold_loop_parses (today : Z)
      (events_list : list (option string * option string * string)) :
  forall acc out,
    Api.unfold_loop today events_list acc = Done out ->
    forall t, In t events_list ->
      exists a b, strptime_date (fst (fst t)) = Done a
                  /\ strptime_date (snd (fst t)) = Done b.
Proof.
  induction events_list as [|e rest IH]; intros acc out Hrun t Ht; [destruct Ht|].
  cbn [Api.unfold_loop] in Hrun.
  destruct (strptime_date (fst (fst e))) as [a|x] eqn:Ha; [|discriminate].
  destruct (strptime_date (snd (fst e))) as [b|x] eqn:Hb; [|discriminate].
  destruct Ht as [<- | Ht]; [exists a, b; auto|].
  exact (IH _ _ Hrun t Ht).
Qed.

(** X3. An event with a listed label whose start carries a time of day, a
    [dateTime] text of more than ten characters as the service writes them,
    makes [get_events_by_calendarId] raise: the whole list of events of the
    calendar is lost, not only that event. *)
Theorem api_timed_event_raises (today : Z) (events : list Api.event)
        (allEvents : list string) (e : Api.event) (label : string)
        (p : Api.time_point) (s : string) :
  In e events ->
  Api.summary e = Some label ->
  str_in (upper label) allEvents = true ->
  Api.start e = Some p ->
  Api.dateTime p = Some s ->
  (10 < String.length s)%nat ->
  exists x, Api.get_events_by_calendarId today events allEvents = Fail x.
Proof.
  intros He Hsum Hall Hstart Hdt Hlen.
  unfold Api.get_events_by_calendarId, Api.unfold_events_list.
  pose proof (events_list_inv events allEvents) as Hinv.
  destruct (Api.events_list events allEvents) as [l|x]; [|eexists; reflexivity].
  destruct (Hinv e He) as [s' [Hs' Hl]].
  rewrite Hsum in Hs'. injection Hs' as <-.
  destruct (Hl Hall) as [a [b [Ha [_ Hin]]]].
  unfold Api.get_event_date in Ha. rewrite Hstart, Hdt in Ha. injection Ha as <-.
  destruct (Api.unfold_loop today l []) as [out|x] eqn:Hrun; [|eexists; reflexivity].
  exfalso.
  destruct (unfold_loop_parses today l [] out Hrun _ Hin) as [a [_ [Ha _]]].
  simpl in Ha. unfold strptime_date in Ha.
  destruct (strptime_long s Hlen) as [err Herr]. rewrite Herr in Ha. discriminate.
Qed.

Lemma api_timed_event_raises_witness :
  exists x,
    Api.get_events_by_calendarId 17897
      [{| Api.start := Some {| Api.date := None;
                               Api.dateTime := Some "2019-01-06T18:00:00+01:00" |};
          Api.end_ := Some {| Api.date := None;
                              Api.dateTime := Some "2019-01-06T20:00:00+01:00" |};
          Api.summary := Some "Sport" |}]
      ["WORK"; "SPORT"]
    = Fail x.
Proof.
  eapply (api_timed_event_raises 17897 _ ["WORK"; "SPORT"] _ "Sport" _
            "2019-01-06T18:00:00+01:00").
  - left. reflexivity.
  - reflexivity.
  - reflexivity.
  - reflexivity.
  - reflexivity.
  - simpl. lia.
Defined.

(** X4. An event without a summary is not skipped: it makes
    [get_events_by_calendarId] raise a [KeyError], whatever the labels. *)
Theorem api_event_without_summary_raises (today : Z) (events : list Api.event)
        (allEvents : list string) (e : Api.event) :
  In e events ->
  Api.summary e = None ->
  exists k, Api.get_events_by_calendarId today events allEvents = Fail (Exn (KeyError k)).
Proof.
  intros He Hsum. unfold Api.get_events_by_calendarId.
  pose proof (events_list_inv events allEvents) as Hinv.
  destruct (Api.events_list events allEvents) as [l|x].
  - destruct (Hinv e He) as [s [Hs _]]. congruence.
  - destruct Hinv as [k ->]. exists k. reflexivity.
Qed.

Lemma api_event_without_summary_raises_witness :
  exists k,
    Api.get_events_by_calendarId 17897
      [all_day {| ev_start := 17902; ev_end := 17903; summary := "Work" |};
       {| Api.start := Some {| Api.date := Some "2019-01-07"; Api.dateTime := None |};
          Api.end_ := Some {| Api.date := Some "2019-01-08"; Api.dateTime := None |};
          Api.summary := None |}]
      ["WORK"]
    = Fail (Exn (KeyError k)).
Proof.
  eapply api_event_without_summary_raises.
  - right. left. reflexivity.
  - reflexivity.
Defined.

(** X5. [get_date_last_event] reads back what [add_weekmenu_to_calendar]
    wrote: when the last event of the list is the one inserted for the row
    [r] of a menu, the result is the date of [r], whatever events come before
    it. *)
Theorem get_date_last_event_menu_event (earlier : list Api.event) (calendarId : string)
        (r : Day.t) :
  is_date (Day.date r) ->
  Api.get_date_last_event (earlier ++ [listed (menu_event calendarId r)])
  = Done (Day.date r).
Proof.
  intros Hd. unfold Api.get_date_last_event.
  rewrite rev_unit.
  cbn [listed menu_event Api.start Api.date ins_start_date].
  rewrite isoformat_ten. apply strptime_date_isoformat, Hd.
Qed.

Lemma get_date_last_event_menu_event_witness :
  Api.get_date_last_event
    ([listed (menu_event "menu@example.org" saturday_slot)]
     ++ [listed (menu_event "menu@example.org" sunday_slot)])
  = Done 17902.
Proof.
  apply (get_date_last_event_menu_event _ "menu@example.org" sunday_slot).
  unfold is_date. simpl. lia.
Defined.

(** X6. [get_date_last_event] raises [IndexError] on a calendar without
    events, and [KeyError] when the last event has a time of day and so no
    [date] under [start]. *)
Theorem get_date_last_event_errors (items : list Api.event) (e : Api.event)
        (p : Api.time_point) :
  Api.start e = Some p ->
  Api.date p = None ->
  Api.get_date_last_event [] = Fail (IndexError "list index out of range")
  /\ Api.get_date_last_event (items ++ [e]) = Fail (Exn (KeyError "date")).
Proof.
  intros Hs Hd. split; [reflexivity|].
  unfold Api.get_date_last_event. rewrite rev_unit, Hs, Hd. reflexivity.
Qed.

Lemma get_date_last_event_errors_witness :
  Api.get_date_last_event
    ([listed (menu_event "menu@example.org" saturday_slot)]
     ++ [{| Api.start := Some {| Api.date := None;
                                 Api.dateTime := Some "2019-01-06T18:00:00+01:00" |};
            Api.end_ := None;
            Api.summary := Some "Dinner out" |}])
  = Fail (Exn (KeyError "date")).
Proof.
  apply (proj2 (get_date_last_event_errors
                  [listed (menu_event "menu@example.org" saturday_slot)]
                  {| Api.start := Some {| Api.date := None;
                                          Api.dateTime := Some "2019-01-06T18:00:00+01:00" |};
                     Api.end_ := None;
                     Api.summary := Some "Dinner out" |}
                  {| Api.date := None;
                     Api.dateTime := Some "2019-01-06T18:00:00+01:00" |}
                  eq_refl eq_refl)).
Defined.

(** ** Choosing a recipe *)

Lemma rows_with_label_In (df : list Recipe.t) (label : string) (r : Recipe.t) :
  In r (rows_with_label df label) <-> In r df /\ Recipe.row_number r = label.
Proof. unfold rows_with_label. rewrite filter_In, String.eqb_eq. reflexivity. Qed.

Lemma rows_with_label_absent (df : list Recipe.t) (label : string) :
  ~ In label (map Recipe.row_number df) -> rows_with_label df label = [].
Proof.
  intros H. destruct (rows_with_label df label) as [|x l] eqn:E; [reflexivity|].
  exfalso. apply H.
  assert (Hx : In x (rows_with_label df label)) by (rewrite E; left; reflexivity).
  apply rows_with_label_In in Hx as [Hx <-]. apply in_map, Hx.
Qed.

Lemma loc_Some (df : list Recipe.t) (label : string) (r : Recipe.t) :
  loc df label = Some r -> In r df /\ Recipe.row_number r = label.
Proof.
  unfold loc. destruct (rows_with_label df label) as [|x [|y l]] eqn:E; try discriminate.
  intros H. injection H as ->. apply rows_with_label_In. rewrite E. left. reflexivity.
Qed.

(** In a frame whose row numbers are distinct, every row is found under its
    row number. *)
Lemma loc_row_number (df : list Recipe.t) (r : Recipe.t) :
  List.NoDup (map Recipe.row_number df) -> In r df ->
  loc df (Recipe.row_number r) = Some r.
Proof.
  induction df as [|a l IH]; intros Hnd Hin; [destruct Hin|].
  cbn [map] in Hnd. apply List.NoDup_cons_iff in Hnd as [Ha Hnd].
  unfold loc, rows_with_label. cbn [List.filter].
  destruct (String.eqb (Recipe.row_number a) (Recipe.row_number r)) eqn:E.
  - apply String.eqb_eq in E.
    fold (rows_with_label l (Recipe.row_number r)).
    rewrite rows_with_label_absent by (rewrite <- E; exact Ha).
    destruct Hin as [-> | Hin]; [reflexivity|].
    exfalso. apply Ha. rewrite E. apply in_map, Hin.
  - apply String.eqb_neq in E.
    destruct Hin as [-> | Hin]; [congruence|].
    exact (IH Hnd Hin).
Qed.

(** A row number that two rows carry is a duplicate of the index. *)
Lemma rows_with_label_NoDup (df : list Recipe.t) (label : string) :
  List.NoDup (map Recipe.row_number df) -> (length (rows_with_label df label) <= 1)%nat.
Proof.
  induction df as [|a l IH]; intros Hnd; [simpl; lia|].
  cbn [map] in Hnd. apply List.NoDup_cons_iff in Hnd as [Ha Hnd].
  unfold rows_with_label. cbn [List.filter].
  destruct (String.eqb (Recipe.row_number a) label) eqn:E.
  - apply String.eqb_eq in E. fold (rows_with_label l label).
    rewrite rows_with_label_absent by (rewrite <- E; exact Ha). simpl. lia.
  - exact (IH Hnd).
Qed.

Lemma candidates_nil (eligible : list Recipe.t) :
  candidates eligible = [] <-> query_difficult eligible = [].
Proof.
  unfold candidates, sort_values_last_date. split.
  - intros H. destruct (query_difficult eligible) as [|x l] eqn:Hq; [reflexivity|].
    exfalso.
    assert (Hlen : length (sort_by (fun a b => na_first_le (Recipe.last_date_on_menu a)
                                                           (Recipe.last_date_on_menu b))
                                   (x :: l)) = S (length l))
      by (rewrite (Permutation_length (sort_by_perm _ _)); reflexivity).
    destruct (sort_by _ (x :: l)) as [|y l']; [discriminate|]. discriminate.
  - intros ->. reflexivity.
Qed.

(** A successful call, in full: the row number is a candidate, the recipe and
    the description written in the menu are those of the row that [loc] finds
    for it, and that row number is dropped. *)
Lemma choose_recipe_Ok (u : nat) (difficulty : string) (idx : Z)
      (weekmenu_df weekmenu_df' : list Day.t) (eligible eligible' : list Recipe.t)
      (c : string) :
  choose_recipe u difficulty idx weekmenu_df eligible = Ok (c, weekmenu_df', eligible') ->
  In c (candidates eligible)
  /\ exists r, loc eligible c = Some r
               /\ weekmenu_df' = set_menu weekmenu_df idx (Recipe.recipe r)
                                          (Recipe.description r)
               /\ eligible' = drop eligible c.
Proof.
  unfold choose_recipe.
  destruct (np_random_choice u (candidates eligible)) as [c0|e] eqn:Hc; [|discriminate].
  destruct (loc eligible c0) as [r|] eqn:Hl; [|destruct (rows_with_label eligible c0); discriminate].
  intros H. injection H as <- <- <-.
  split; [exact (np_random_choice_In _ _ _ Hc)|].
  exists r. auto.
Qed.

(** The three ways in which a call ends: the draw raises because no eligible
    row is marked 'difficult'; the drawn row number is carried by several
    eligible rows and the assignment raises; or the call returns. *)
Lemma choose_recipe_cases (u : nat) (difficulty : string) (idx : Z)
      (weekmenu_df : list Day.t) (eligible : list Recipe.t) :
  (query_difficult eligible = []
   /\ choose_recipe u difficulty idx weekmenu_df eligible
      = Raise (ValueError "a cannot be empty unless no samples are taken"))
  \/ (exists c,
         np_random_choice u (candidates eligible) = Ok c
         /\ (2 <= length (rows_with_label eligible c))%nat
         /\ choose_recipe u difficulty idx weekmenu_df eligible
            = Raise (ValueError "Incompatible indexer with Series"))
  \/ (exists c x,
         np_random_choice u (candidates eligible) = Ok c
         /\ loc eligible c = Some x
         /\ choose_recipe u difficulty idx weekmenu_df eligible
            = Ok (c, set_menu weekmenu_df idx (Recipe.recipe x) (Recipe.description x),
                  drop eligible c)).
Proof.
  unfold choose_recipe.
  destruct (np_random_choice u (candidates eligible)) as [c|e] eqn:Hc.
  - right. pose proof (np_random_choice_In _ _ _ Hc) as Hin.
    apply candidates_In in Hin as [r [Hr [Hrow _]]].
    assert (Hrows : In r (rows_with_label eligible c))
      by (apply rows_with_label_In; auto).
    unfold loc. destruct (rows_with_label eligible c) as [|x [|y l]] eqn:E.
    + destruct Hrows.
    + right. exists c, x. split; [reflexivity|].
      split; [rewrite E; reflexivity | reflexivity].
    + left. exists c. split; [reflexivity|].
      split; [rewrite E; simpl; lia | reflexivity].
  - left. unfold np_random_choice in Hc.
    destruct (candidates eligible) eqn:Hcand; [|discriminate].
    injection Hc as <-. split; [apply candidates_nil, Hcand | reflexivity].
Qed.

(** X7. Whatever tier is requested, [choose_recipe] raises the [ValueError]
    of [np.random.choice] when no eligible recipe is marked 'difficult',
    however many recipes of the requested tier are eligible; it raises the
    [ValueError] of the assignment when the drawn row number is carried by
    several eligible rows; and it returns when an eligible recipe is marked
    'difficult' and the row numbers of the eligible rows are distinct. It
    never raises [KeyError]. *)
Theorem choose_recipe_raises (u : nat) (difficulty : string) (idx : Z)
        (weekmenu_df : list Day.t) (eligible : list Recipe.t) :
  (query_difficult eligible = [] ->
   choose_recipe u difficulty idx weekmenu_df eligible
   = Raise (ValueError "a cannot be empty unless no samples are taken"))
  /\ (forall c, np_random_choice u (candidates eligible) = Ok c ->
                (2 <= length (rows_with_label eligible c))%nat ->
                choose_recipe u difficulty idx weekmenu_df eligible
                = Raise (ValueError "Incompatible indexer with Series"))
  /\ (query_difficult eligible <> [] ->
      List.NoDup (map Recipe.row_number eligible) ->
      exists c weekmenu_df' eligible',
        choose_recipe u difficulty idx weekmenu_df eligible
        = Ok (c, weekmenu_df', eligible'))
  /\ (forall k, choose_recipe u difficulty idx weekmenu_df eligible <> Raise (KeyError k)).
Proof.
  destruct (choose_recipe_cases u difficulty idx weekmenu_df eligible)
    as [[Hq Hr] | [[c [Hc [Hlen Hr]]] | [c [x [Hc [Hl Hr]]]]]].
  - split; [intros _; exact Hr|]. split.
    + intros c Hc _. exfalso. apply np_random_choice_In in Hc.
      apply candidates_In in Hc as [r [Hin [_ Hd]]].
      assert (Hr' : In r (query_difficult eligible)).
      { apply filter_In. split; [exact Hin | apply String.eqb_eq, Hd]. }
      rewrite Hq in Hr'. destruct Hr'.
    + split; [intros H; contradiction|]. intros k. rewrite Hr. discriminate.
  - assert (Hq : query_difficult eligible <> []).
    { intros Hq. apply np_random_choice_In in Hc.
      rewrite (proj2 (candidates_nil eligible) Hq) in Hc. destruct Hc. }
    split; [intros H; contradiction|]. split; [intros c' _ _; exact Hr|]. split.
    + intros _ Hnd. pose proof (rows_with_label_NoDup eligible c Hnd). lia.
    + intros k. rewrite Hr. discriminate.
  - assert (Hq : query_difficult eligible <> []).
    { intros Hq. apply np_random_choice_In in Hc.
      rewrite (proj2 (candidates_nil eligible) Hq) in Hc. destruct Hc. }
    split; [intros H; contradiction|]. split.
    + intros c' Hc' Hlen. exfalso. rewrite Hc in Hc'. injection Hc' as <-.
      unfold loc in Hl. destruct (rows_with_label eligible c) as [|y [|z l]];
        simpl in Hlen; try discriminate; lia.
    + split; [intros _ _; eexists; eexists; eexists; exact Hr|].
      intros k. rewrite Hr. discriminate.
Qed.

Lemma choose_recipe_raises_witness :
  choose_recipe 0 "easy" 17899 [] [soup; curry]
  = Raise (ValueError "a cannot be empty unless no samples are taken")
  /\ choose_recipe 0 "easy" 17899 [] [soup; stew; stew]
     = Raise (ValueError "Incompatible indexer with Series")
  /\ exists c weekmenu_df' eligible',
       choose_recipe 0 "easy" 17899 [] [soup; stew] = Ok (c, weekmenu_df', eligible').
Proof.
  split; [|split].
  - apply (proj1 (choose_recipe_raises 0 "easy" 17899 [] [soup; curry])). reflexivity.
  - apply (proj1 (proj2 (choose_recipe_raises 0 "easy" 17899 [] [soup; stew; stew])) "3").
    + reflexivity.
    + simpl. lia.
  - apply (proj1 (proj2 (proj2 (choose_recipe_raises 0 "easy" 17899 [] [soup; stew])))).
    + discriminate.
    + repeat constructor; simpl; intuition discriminate.
Defined.

Lemma na_first_le_trans (a b c : option Z) :
  na_first_le a b = true -> na_first_le b c = true -> na_first_le a c = true.
Proof.
  destruct a as [x|], b as [y|], c as [z|]; simpl; try congruence.
  rewrite !Z.leb_le. lia.
Qed.

Lemma filter_length_perm {A : Type} (p : A -> bool) (l l' : list A) :
  Permutation l l' -> length (List.filter p l) = length (List.filter p l').
Proof.
  induction 1 as [|x l l' _ IH|x y l|l l' l'' _ IH1 _ IH2]; simpl.
  - reflexivity.
  - destruct (p x); simpl; congruence.
  - destruct (p x), (p y); reflexivity.
  - congruence.
Qed.

Lemma filter_none {A : Type} (p : A -> bool) (l : list A) :
  (forall y, In y l -> p y = false) -> List.filter p l = [].
Proof.
  induction l as [|y l IH]; intros H; [reflexivity|]. simpl.
  rewrite (H y (or_introl eq_refl)). apply IH. intros z Hz. apply H. right. exact Hz.
Qed.

(** In a frame sorted by last date, fewer than [k] rows are strictly less
    recent than the row at position [k]. *)
Lemma sorted_rank (S : list Recipe.t) (d : Recipe.t) :
  StronglySorted (fun a b => na_first_le (Recipe.last_date_on_menu a)
                                         (Recipe.last_date_on_menu b) = true) S ->
  forall k, (k < length S)%nat ->
            (length (List.filter (fun x => less_recent x (nth k S d)) S) <= k)%nat.
Proof.
  induction 1 as [|a S' Hs IH Ha]; intros k Hk; [simpl in Hk; lia|].
  assert (Hnone : forall y, In y (a :: S') -> less_recent y a = false).
  { intros y Hy. unfold less_recent.
    assert (Hle : na_first_le (Recipe.last_date_on_menu a) (Recipe.last_date_on_menu y) = true).
    { destruct Hy as [<- | Hy].
      - destruct (Recipe.last_date_on_menu a); simpl; [apply Z.leb_refl | reflexivity].
      - exact (proj1 (List.Forall_forall _ _) Ha y Hy). }
    rewrite Hle. apply andb_false_r. }
  destruct k as [|k].
  - cbn [nth].
    rewrite (filter_none (fun x => less_recent x a) (a :: S') Hnone). simpl. lia.
  - cbn [nth List.filter]. simpl in Hk.
    specialize (IH k ltac:(lia)).
    destruct (less_recent a (nth k S' d)); simpl; lia.
Qed.

(** X8. The recipe that [choose_recipe] returns is among the least recently
    used: it is the row number of an eligible recipe marked 'difficult', and
    at most four eligible recipes marked 'difficult' were on the menu
    strictly longer ago (or never, if the chosen one has been). *)
Theorem choose_recipe_least_recent (u : nat) (difficulty : string) (idx : Z)
        (weekmenu_df weekmenu_df' : list Day.t) (eligible eligible' : list Recipe.t)
        (c : string) :
  choose_recipe u difficulty idx weekmenu_df eligible = Ok (c, weekmenu_df', eligible') ->
  exists r,
    In r (query_difficult eligible)
    /\ Recipe.row_number r = c
    /\ (length (List.filter (fun x => less_recent x r) (query_difficult eligible)) <= 4)%nat.
Proof.
  intros Hc. unfold choose_recipe in Hc.
  destruct (np_random_choice u (candidates eligible)) as [c0|e] eqn:Hch; [|discriminate].
  destruct (loc eligible c0) as [r0|]; [|destruct (rows_with_label eligible c0); discriminate].
  injection Hc as -> _ _.
  unfold candidates in Hch.
  remember (sort_values_last_date (query_difficult eligible)) as S eqn:HS.
  destruct (sort_values_last_date_sorted (query_difficult eligible)) as [Hsorted Hperm].
  rewrite <- HS in Hsorted, Hperm.
  remember (firstn 5 (map Recipe.row_number S)) as cands eqn:Hcands.
  destruct cands as [|x cs] eqn:Ec; [discriminate|]. rewrite <- Ec in *.
  assert (Hlen : length cands <> 0%nat) by (rewrite Ec; discriminate).
  unfold np_random_choice in Hch. rewrite Ec in Hch at 1.
  assert (Hc0 : c = nth (u mod length cands)%nat cands "") by congruence.
  clear Hch.
  pose proof (Nat.mod_upper_bound u (length cands) Hlen) as Hj.
  remember (u mod length cands)%nat as j eqn:Ej. clear Ej.
  assert (Hbound : (length cands <= 5 /\ length cands <= length S)%nat).
  { rewrite Hcands, length_firstn, length_map. lia. }
  destruct S as [|d S'] eqn:ES; [simpl in Hbound; lia|]. rewrite <- ES in *.
  exists (nth j S d). split; [|split].
  - apply (Permutation_in _ Hperm). apply nth_In. lia.
  - rewrite Hc0, Hcands, nth_firstn.
    replace (j <? 5)%nat with true by (symmetry; apply Nat.ltb_lt; lia).
    rewrite (nth_indep _ "" (Recipe.row_number d)) by (rewrite length_map; lia).
    symmetry. apply map_nth.
  - rewrite <- (filter_length_perm _ _ _ Hperm).
    pose proof (sorted_rank S d) as Hrank.
    assert (Hss : StronglySorted
                    (fun a b => na_first_le (Recipe.last_date_on_menu a)
                                            (Recipe.last_date_on_menu b) = true) S).
    { apply Sorted_StronglySorted; [|exact Hsorted].
      intros a b c' Hab Hbc. exact (na_first_le_trans _ _ _ Hab Hbc). }
    specialize (Hrank Hss j ltac:(lia)). lia.
Qed.

Lemma choose_recipe_least_recent_witness :
  exists r,
    In r (query_difficult [soup; stew; roast])
    /\ Recipe.row_number r = "4"
    /\ (length (List.filter (fun x => less_recent x r) (query_difficult [soup; stew; roast]))
        <= 4)%nat.
Proof.
  apply (choose_recipe_least_recent 1 "medium" 17899 [] [] [soup; stew; roast]
                                    [soup; stew] "4").
  reflexivity.
Defined.

(** ** The loop of [generate_weekmenu] *)

(** One turn of the loop, in full. *)
Lemma weekmenu_row_step (rng : nat -> nat) (SPREADSHEET_ID : string)
      (traditions : gmap string string) (free_events : list string)
      (r : Day.t) (weekmenu_df : list Day.t) (w w' : world) (res : result (list Day.t)) :
  weekmenu_row rng SPREADSHEET_ID traditions free_events r weekmenu_df w = (res, w') ->
  match traditions !! Day.weekday r with
  | Some tradition =>
      res = Ok (set_menu weekmenu_df (Day.date r) tradition "") /\ w' = w
  | None =>
      (exists msg,
          res = Raise (ValueError msg) /\ w' = w
          /\ ((msg = "a cannot be empty unless no samples are taken"
               /\ query_difficult (eligible_recipes w) = [])
              \/ (msg = "Incompatible indexer with Series"
                  /\ exists c, (2 <= length (rows_with_label (eligible_recipes w) c))%nat)))
      \/ (exists c x,
             res = Ok (set_menu weekmenu_df (Day.date r) (Recipe.recipe x)
                                (Recipe.description x))
             /\ In c (candidates (eligible_recipes w))
             /\ loc (eligible_recipes w) c = Some x
             /\ w' = mkWorld (recipes_df w) (drop (eligible_recipes w) c)
                             (sheet_requests w ++ [recorded SPREADSHEET_ID c (Day.date r)])
                             (calendar_requests w) (S (draws w)))
  end.
Proof.
  intros Hrow.
  destruct (traditions !! Day.weekday r) as [t|] eqn:Ht.
  - unfold weekmenu_row, weekmenu_row_with in Hrow. rewrite Ht in Hrow.
    injection Hrow as <- <-. auto.
  - destruct (weekmenu_row_no_tradition rng SPREADSHEET_ID traditions free_events
                r weekmenu_df Ht) as [tier Heq].
    rewrite Heq in Hrow. clear Heq.
    unfold pick_and_record, bind, call_choose_recipe in Hrow.
    destruct (choose_recipe_cases (rng (draws w)) tier (Day.date r) weekmenu_df
                                  (eligible_recipes w))
      as [[Hq Hr] | [[c [Hc [Hlen Hr]]] | [c [x [Hc [Hl Hr]]]]]];
      rewrite Hr in Hrow.
    + left. injection Hrow as <- <-. eexists. split; [reflexivity|]. auto.
    + left. injection Hrow as <- <-. eexists. split; [reflexivity|].
      split; [reflexivity|]. right. split; [reflexivity|]. exists c. exact Hlen.
    + right. simpl in Hrow. injection Hrow as <- <-. exists c, x.
      split; [reflexivity|]. split; [exact (np_random_choice_In _ _ _ Hc)|].
      split; [exact Hl | reflexivity].
Qed.

Lemma Forall2_map_left {A B C : Type} (f : A -> B) (Q : B -> C -> Prop)
      (l : list A) (l' : list C) :
  Forall2 Q (map f l) l' -> Forall2 (fun a b => Q (f a) b) l l'.
Proof.
  revert l'. induction l as [|a l IH]; intros l' H; inversion H; subst; constructor; auto.
Qed.

Lemma Forall2_weaken_In {A B : Type} (P Q : A -> B -> Prop) (l : list A) (l' : list B) :
  Forall2 P l l' -> (forall a b, In a l -> P a b -> Q a b) -> Forall2 Q l l'.
Proof.
  induction 1 as [|a b l l' Hab _ IH]; intros Himp; constructor.
  - apply Himp; [left; reflexivity | exact Hab].
  - apply IH. intros a' b' Hin. apply Himp. right. exact Hin.
Qed.

Lemma Forall2_refl_on {A : Type} (P : A -> A -> Prop) (l : list A) :
  (forall a, P a a) -> Forall2 P l l.
Proof. intros H. induction l; constructor; auto. Qed.

(** The row that [set_menu] makes of [a]. *)
Lemma set_menu_row (idx : Z) (recipe description : string) (a : Day.t) :
  let a' := if Day.date a =? idx
            then Day.mk (Day.date a) (Day.events_cal_1 a) (Day.events_cal_2 a)
                        (Day.weekday a) (Some recipe) (Some description)
            else a in
  Day.date a' = Day.date a /\ Day.weekday a' = Day.weekday a
  /\ Day.events_cal_1 a' = Day.events_cal_1 a /\ Day.events_cal_2 a' = Day.events_cal_2 a
  /\ (filled a -> filled a') /\ (Day.date a = idx -> filled a').
Proof.
  cbv zeta. unfold filled. destruct (Day.date a =? idx) eqn:E; simpl.
  - repeat split; try reflexivity; intros; discriminate.
  - apply Z.eqb_neq in E. repeat split; try reflexivity; intros; tauto.
Qed.

Lemma iterrows_table (rng : nat -> nat) (SPREADSHEET_ID : string)
      (traditions : gmap string string) (free_events : list string)
      (rows : list Day.t) :
  forall (weekmenu_df weekmenu_df' : list Day.t) (w w' : world),
    iterrows rng SPREADSHEET_ID traditions free_events rows weekmenu_df w
    = (Ok weekmenu_df', w') ->
    Forall2 (fun a b =>
               Day.date b = Day.date a /\ Day.weekday b = Day.weekday a
               /\ Day.events_cal_1 b = Day.events_cal_1 a
               /\ Day.events_cal_2 b = Day.events_cal_2 a
               /\ (filled a \/ In (Day.date a) (map Day.date rows) -> filled b))
            weekmenu_df weekmenu_df'.
Proof.
  induction rows as [|r rest IH]; intros wm wm' w w' Hrun; simpl in Hrun.
  - injection Hrun as <- _. apply Forall2_refl_on. intros a. simpl. tauto.
  - unfold bind in Hrun.
    destruct (weekmenu_row rng SPREADSHEET_ID traditions free_events r wm w)
      as [[wm1|e] w1] eqn:Hstep; [|discriminate].
    assert (Hset : exists recipe description,
               wm1 = set_menu wm (Day.date r) recipe description).
    { apply weekmenu_row_step in Hstep.
      destruct (traditions !! Day.weekday r) as [t|].
      - destruct Hstep as [H _]. injection H as ->. eauto.
      - destruct Hstep as [[msg [H _]] | [c [x [H _]]]]; [discriminate|].
        injection H as ->. eauto. }
    destruct Hset as [n [d ->]].
    specialize (IH _ _ _ _ Hrun). unfold set_menu in IH.
    apply Forall2_map_left in IH.
    eapply Forall2_weaken_In; [exact IH|].
    intros a b _ [H1 [H2 [H3 [H4 H5]]]].
    destruct (set_menu_row (Day.date r) n d a) as [E1 [E2 [E3 [E4 [E5 E6]]]]].
    cbv zeta in E1, E2, E3, E4, E5, E6.
    rewrite E1 in H1. rewrite E2 in H2. rewrite E3 in H3. rewrite E4 in H4.
    split; [exact H1|]. split; [exact H2|]. split; [exact H3|]. split; [exact H4|].
    intros [Hf | Hin]; [apply H5; left; exact (E5 Hf)|].
    simpl in Hin. destruct Hin as [Hd | Hin]; apply H5.
    + left. apply E6. symmetry. exact Hd.
    + right. rewrite E1. exact Hin.
Qed.

(** X9. When [generate_weekmenu] ends, its table has the rows of [events_df]
    in the same order with the same dates, weekdays and event labels, and
    every row has a recipe and a description. *)
Theorem generate_weekmenu_table (rng : nat -> nat) (SPREADSHEET_ID : string)
        (events_df : list Day.t) (traditions : gmap string string)
        (free_events : list string) (weekmenu_df : list Day.t) (w w' : world) :
  generate_weekmenu rng SPREADSHEET_ID events_df traditions free_events w
  = (Ok weekmenu_df, w') ->
  Forall2 (fun a b =>
             Day.date b = Day.date a /\ Day.weekday b = Day.weekday a
             /\ Day.events_cal_1 b = Day.events_cal_1 a
             /\ Day.events_cal_2 b = Day.events_cal_2 a
             /\ filled b)
          events_df weekmenu_df.
Proof.
  intros Hrun. unfold generate_weekmenu in Hrun.
  apply iterrows_table in Hrun.
  eapply Forall2_weaken_In; [exact Hrun|].
  intros a b Hin [H1 [H2 [H3 [H4 H5]]]].
  split; [exact H1|]. split; [exact H2|]. split; [exact H3|]. split; [exact H4|].
  apply H5. right. apply in_map. exact Hin.
Qed.

Lemma generate_weekmenu_table_witness :
  Forall2 (fun a b =>
             Day.date b = Day.date a /\ Day.weekday b = Day.weekday a
             /\ Day.events_cal_1 b = Day.events_cal_1 a
             /\ Day.events_cal_2 b = Day.events_cal_2 a
             /\ filled b)
          [friday_slot; saturday_slot; sunday_slot]
          [Day.mk 17900 (Some "WORK") None "Friday" (Some "Pizza") (Some "");
           Day.mk 17901 None None "Saturday" (Some "Stew") (Some "Beef, slow cooked");
           Day.mk 17902 None None "Sunday" (Some "Roast") (Some "Sunday roast")].
Proof.
  apply (generate_weekmenu_table rng0 "sheet-1" [friday_slot; saturday_slot; sunday_slot]
           (TRADITIONS sample_config) ["HOME"] _ weekend_world
           (snd (generate_weekmenu rng0 "sheet-1" [friday_slot; saturday_slot; sunday_slot]
                   (TRADITIONS sample_config) ["HOME"] weekend_world))).
  vm_compute. reflexivity.
Defined.

Lemma iterrows_requests (rng : nat -> nat) (SPREADSHEET_ID : string)
      (traditions : gmap string string) (free_events : list string)
      (rows : list Day.t) :
  forall (weekmenu_df : list Day.t) (w w' : world) (res : result (list Day.t)),
    iterrows rng SPREADSHEET_ID traditions free_events rows weekmenu_df w = (res, w') ->
    recipes_df w' = recipes_df w
    /\ calendar_requests w' = calendar_requests w
    /\ (forall x, In x (eligible_recipes w') -> In x (eligible_recipes w))
    /\ exists k new,
         sheet_requests w' = sheet_requests w ++ new
         /\ Forall2 (fun r u => exists row, u = recorded SPREADSHEET_ID row (Day.date r))
                    (firstn k (drawn_slots traditions rows)) new
         /\ draws w' = (draws w + length new)%nat
         /\ (forall weekmenu_df', res = Ok weekmenu_df' ->
                                  firstn k (drawn_slots traditions rows)
                                  = drawn_slots traditions rows).
Proof.
  induction rows as [|r rest IH]; intros wm w w' res Hrun; simpl in Hrun.
  - injection Hrun as <- <-. repeat split; auto.
    exists 0%nat, []. rewrite app_nil_r.
    split; [reflexivity|]. split; [constructor|]. split; [simpl; lia | reflexivity].
  - unfold bind in Hrun.
    destruct (weekmenu_row rng SPREADSHEET_ID traditions free_events r wm w)
      as [[wm1|e] w1] eqn:Hstep; apply weekmenu_row_step in Hstep;
      unfold drawn_slots; cbn [List.filter]; fold (drawn_slots traditions rest);
      destruct (traditions !! Day.weekday r) as [t|].
    + destruct Hstep as [_ ->]. exact (IH _ _ _ _ Hrun).
    + destruct Hstep as [[msg [H _]] | [c [x [_ [_ [_ ->]]]]]]; [discriminate|].
      destruct (IH _ _ _ _ Hrun) as [H1 [H2 [H3 [k [new [H4 [H5 [H6 H7]]]]]]]].
      simpl in H1, H2, H3, H4, H6.
      split; [exact H1|]. split; [exact H2|]. split.
      { intros y Hy. apply H3, drop_In in Hy. tauto. }
      exists (S k), (recorded SPREADSHEET_ID c (Day.date r) :: new).
      split; [rewrite H4, <- app_assoc; reflexivity|]. split.
      { cbn [firstn]. constructor; [exists c; reflexivity | exact H5]. }
      split; [rewrite H6; simpl; lia|].
      intros wm' Hres. cbn [firstn]. rewrite (H7 wm' Hres). reflexivity.
    + destruct Hstep as [H _]. discriminate.
    + destruct Hstep as [[msg [_ [-> _]]] | [c [x [H _]]]]; [|discriminate].
      injection Hrun as <- <-. repeat split; auto.
      exists 0%nat, []. rewrite app_nil_r.
      split; [reflexivity|]. split; [constructor|]. split; [simpl; lia|].
      intros wm' H. discriminate.
Qed.

(** X10. However [generate_weekmenu] ends, it has sent nothing to the
    calendar and has left the frame of all recipes alone; the eligible frame
    has only lost rows; and the requests it has sent to the sheet are, in
    order, one for each slot without a tradition that it has handled, each
    writing the date of its slot. When it ends without raising, that is one
    request for every slot without a tradition. *)
Theorem generate_weekmenu_requests (rng : nat -> nat) (SPREADSHEET_ID : string)
        (events_df : list Day.t) (traditions : gmap string string)
        (free_events : list string) (w w' : world) (res : result (list Day.t)) :
  generate_weekmenu rng SPREADSHEET_ID events_df traditions free_events w = (res, w') ->
  recipes_df w' = recipes_df w
  /\ calendar_requests w' = calendar_requests w
  /\ (forall x, In x (eligible_recipes w') -> In x (eligible_recipes w))
  /\ exists k new,
       sheet_requests w' = sheet_requests w ++ new
       /\ Forall2 (fun r u => exists row, u = recorded SPREADSHEET_ID row (Day.date r))
                  (firstn k (drawn_slots traditions events_df)) new
       /\ (forall weekmenu_df, res = Ok weekmenu_df ->
                               firstn k (drawn_slots traditions events_df)
                               = drawn_slots traditions events_df).
Proof.
  intros Hrun. unfold generate_weekmenu in Hrun.
  destruct (iterrows_requests _ _ _ _ _ _ _ _ _ Hrun)
    as [H1 [H2 [H3 [k [new [H4 [H5 [_ H7]]]]]]]].
  repeat split; auto. exists k, new. auto.
Qed.

Lemma generate_weekmenu_requests_witness :
  exists k new,
    sheet_requests
      (snd (generate_weekmenu rng0 "sheet-1" [friday_slot; saturday_slot; sunday_slot]
                              (TRADITIONS sample_config) ["HOME"] weekend_world))
    = sheet_requests weekend_world ++ new
    /\ Forall2 (fun r u => exists row, u = recorded "sheet-1" row (Day.date r))
               (firstn k (drawn_slots (TRADITIONS sample_config)
                                      [friday_slot; saturday_slot; sunday_slot]))
               new.
Proof.
  destruct (generate_weekmenu_requests rng0 "sheet-1"
              [friday_slot; saturday_slot; sunday_slot]
              (TRADITIONS sample_config) ["HOME"] weekend_world
              (snd (generate_weekmenu rng0 "sheet-1"
                      [friday_slot; saturday_slot; sunday_slot]
                      (TRADITIONS sample_config) ["HOME"] weekend_world))
              (fst (generate_weekmenu rng0 "sheet-1"
                      [friday_slot; saturday_slot; sunday_slot]
                      (TRADITIONS sample_config) ["HOME"] weekend_world)))
    as [_ [_ [_ [k [new [H1 [H2 _]]]]]]].
  - vm_compute. reflexivity.
  - exists k, new. auto.
Defined.

Lemma drop_absent (df : list Recipe.t) (label : string) :
  ~ In label (map Recipe.row_number df) -> drop df label = df.
Proof.
  induction df as [|a l IH]; intros H; [reflexivity|]. simpl in *.
  destruct (String.eqb (Recipe.row_number a) label) eqn:E.
  - apply String.eqb_eq in E. tauto.
  - simpl. f_equal. apply IH. tauto.
Qed.

Lemma drop_NoDup (df : list Recipe.t) (label : string) :
  List.NoDup (map Recipe.row_number df) ->
  List.NoDup (map Recipe.row_number (drop df label)).
Proof.
  induction df as [|a l IH]; intros H; [constructor|]. simpl in *.
  apply List.NoDup_cons_iff in H as [Ha Hl].
  destruct (negb (String.eqb (Recipe.row_number a) label)); [|exact (IH Hl)].
  simpl. constructor; [|exact (IH Hl)].
  intros Hin. apply Ha. apply in_map_iff in Hin as [x [Hx Hd]].
  apply drop_In in Hd as [Hd _]. apply in_map_iff. exists x. auto.
Qed.

(** With distinct row numbers, dropping the row number of a recipe marked
    'difficult' leaves one such recipe fewer. *)
Lemma query_difficult_drop (df : list Recipe.t) (r : Recipe.t) :
  List.NoDup (map Recipe.row_number df) ->
  In r df -> Recipe.difficulty r = "difficult" ->
  S (length (query_difficult (drop df (Recipe.row_number r))))
  = length (query_difficult df).
Proof.
  induction df as [|a l IH]; intros Hnd Hin Hd; [destruct Hin|].
  simpl in Hnd. apply List.NoDup_cons_iff in Hnd as [Ha Hl].
  destruct Hin as [-> | Hin].
  - unfold drop. cbn [List.filter]. rewrite String.eqb_refl. cbn [negb].
    fold (drop l (Recipe.row_number r)). rewrite (drop_absent _ _ Ha).
    unfold query_difficult. cbn [List.filter]. rewrite Hd. reflexivity.
  - assert (Hne : String.eqb (Recipe.row_number a) (Recipe.row_number r) = false).
    { apply String.eqb_neq. intros E. apply Ha. rewrite E. apply in_map. exact Hin. }
    unfold drop. cbn [List.filter]. rewrite Hne. cbn [negb].
    fold (drop l (Recipe.row_number r)).
    unfold query_difficult. cbn [List.filter].
    fold (query_difficult (drop l (Recipe.row_number r))). fold (query_difficult l).
    specialize (IH Hl Hin Hd).
    destruct (String.eqb (Recipe.difficulty a) "difficult"); simpl; lia.
Qed.

Lemma iterrows_succeeds (rng : nat -> nat) (SPREADSHEET_ID : string)
      (traditions : gmap string string) (free_events : list string)
      (rows : list Day.t) :
  forall (weekmenu_df : list Day.t) (w : world),
    List.NoDup (map Recipe.row_number (eligible_recipes w)) ->
    ((length (drawn_slots traditions rows) <= length (query_difficult (eligible_recipes w)))%nat ->
     exists weekmenu_df' w',
       iterrows rng SPREADSHEET_ID traditions free_events rows weekmenu_df w
       = (Ok weekmenu_df', w'))
    /\ ((length (query_difficult (eligible_recipes w)) < length (drawn_slots traditions rows))%nat ->
        exists w',
          iterrows rng SPREADSHEET_ID traditions free_events rows weekmenu_df w
          = (Raise (ValueError "a cannot be empty unless no samples are taken"), w')).
Proof.
  induction rows as [|r rest IH]; intros wm w Hnd.
  - split; [intros _; eexists; eexists; reflexivity | simpl; lia].
  - cbn [iterrows]. unfold bind.
    destruct (weekmenu_row rng SPREADSHEET_ID traditions free_events r wm w)
      as [res w1] eqn:Hstep.
    apply weekmenu_row_step in Hstep.
    unfold drawn_slots. cbn [List.filter]. fold (drawn_slots traditions rest).
    destruct (traditions !! Day.weekday r) as [t|].
    + destruct Hstep as [-> ->]. exact (IH _ w Hnd).
    + destruct Hstep as [[msg [-> [-> [[-> Hq] | [_ [c Hlen]]]]]]
                        | [c [x [-> [Hc [Hx ->]]]]]].
      * rewrite Hq. simpl. split; [lia|]. intros _. eexists. reflexivity.
      * pose proof (rows_with_label_NoDup _ c Hnd). lia.
      * apply candidates_In in Hc as [y [Hy [Hrow Hdiff]]].
        pose proof (query_difficult_drop _ y Hnd Hy Hdiff) as Hlen.
        rewrite Hrow in Hlen.
        specialize (IH (set_menu wm (Day.date r) (Recipe.recipe x) (Recipe.description x))
                       (mkWorld (recipes_df w) (drop (eligible_recipes w) c)
                                (sheet_requests w ++ [recorded SPREADSHEET_ID c (Day.date r)])
                                (calendar_requests w) (S (draws w)))
                       (drop_NoDup _ c Hnd)).
        cbn [eligible_recipes] in IH. destruct IH as [IH1 IH2].
        cbn [length]. split; intros H; [apply IH1 | apply IH2]; lia.
Qed.

(** X11. With distinct row numbers in the eligible frame, [generate_weekmenu]
    ends without raising exactly when the eligible recipes marked 'difficult'
    are at least as many as the slots without a tradition, whatever the tiers
    of those slots; with fewer it raises [ValueError]. *)
Theorem generate_weekmenu_succeeds (rng : nat -> nat) (SPREADSHEET_ID : string)
        (events_df : list Day.t) (traditions : gmap string string)
        (free_events : list string) (w : world) :
  List.NoDup (map Recipe.row_number (eligible_recipes w)) ->
  ((length (drawn_slots traditions events_df)
    <= length (query_difficult (eligible_recipes w)))%nat ->
   exists weekmenu_df w',
     generate_weekmenu rng SPREADSHEET_ID events_df traditions free_events w
     = (Ok weekmenu_df, w'))
  /\ ((length (query_difficult (eligible_recipes w))
       < length (drawn_slots traditions events_df))%nat ->
      exists w',
        generate_weekmenu rng SPREADSHEET_ID events_df traditions free_events w
        = (Raise (ValueError "a cannot be empty unless no samples are taken"), w')).
Proof.
  intros Hnd. apply iterrows_succeeds. exact Hnd.
Qed.

Lemma generate_weekmenu_succeeds_witness :
  (exists weekmenu_df w',
      generate_weekmenu rng0 "sheet-1" [friday_slot; saturday_slot; sunday_slot]
                        (TRADITIONS sample_config) ["HOME"] weekend_world
      = (Ok weekmenu_df, w'))
  /\ (exists w',
         generate_weekmenu rng0 "sheet-1" [friday_slot; saturday_slot; sunday_slot]
                           (TRADITIONS sample_config) ["HOME"] sample_world
         = (Raise (ValueError "a cannot be empty unless no samples are taken"), w')).
Proof.
  split.
  - apply (proj1 (generate_weekmenu_succeeds rng0 "sheet-1"
                    [friday_slot; saturday_slot; sunday_slot]
                    (TRADITIONS sample_config) ["HOME"] weekend_world
                    ltac:(repeat constructor; simpl; intuition discriminate))).
    vm_compute. lia.
  - apply (proj2 (generate_weekmenu_succeeds rng0 "sheet-1"
                    [friday_slot; saturday_slot; sunday_slot]
                    (TRADITIONS sample_config) ["HOME"] sample_world
                    ltac:(repeat constructor; simpl; intuition discriminate))).
    vm_compute. lia.
Defined.

Lemma row_number_inj (df : list Recipe.t) (x y : Recipe.t) :
  List.NoDup (map Recipe.row_number df) ->
  In x df -> In y df -> Recipe.row_number x = Recipe.row_number y -> x = y.
Proof.
  induction df as [|a l IH]; intros Hnd Hx Hy Heq; [destruct Hx|].
  simpl in Hnd. apply List.NoDup_cons_iff in Hnd as [Ha Hl].
  destruct Hx as [-> | Hx], Hy as [-> | Hy]; auto.
  - exfalso. apply Ha. rewrite Heq. apply in_map. exact Hy.
  - exfalso. apply Ha. rewrite <- Heq. apply in_map. exact Hx.
Qed.

Lemma slot_content_mono (traditions : gmap string string) (el el' : list Recipe.t)
      (r b : Day.t) :
  (forall x, In x el' -> In x el) ->
  slot_content traditions el' r b -> slot_content traditions el r b.
Proof.
  intros Hsub. unfold slot_content.
  destruct (traditions !! Day.weekday r); [tauto|].
  intros [x [Hx H]]. exists x. split; [|exact H].
  unfold query_difficult in *. apply filter_In in Hx as [Hx Hd].
  apply filter_In. split; [apply Hsub, Hx | exact Hd].
Qed.

Lemma iterrows_content (rng : nat -> nat) (SPREADSHEET_ID : string)
      (traditions : gmap string string) (free_events : list string)
      (rows : list Day.t) :
  forall (weekmenu_df weekmenu_df' : list Day.t) (w w' : world),
    List.NoDup (map Day.date rows) ->
    List.NoDup (map Recipe.row_number (eligible_recipes w)) ->
    iterrows rng SPREADSHEET_ID traditions free_events rows weekmenu_df w
    = (Ok weekmenu_df', w') ->
    Forall2 (fun a b =>
               (~ In (Day.date a) (map Day.date rows) -> b = a)
               /\ (forall r, In r rows -> Day.date r = Day.date a ->
                             slot_content traditions (eligible_recipes w) r b))
            weekmenu_df weekmenu_df'.
Proof.
  induction rows as [|r rest IH]; intros wm wm' w w' Hdates Hrows Hrun; simpl in Hrun.
  - injection Hrun as <- _. apply Forall2_refl_on. intros a.
    split; [reflexivity | intros r []].
  - unfold bind in Hrun.
    destruct (weekmenu_row rng SPREADSHEET_ID traditions free_events r wm w)
      as [[wm1|e] w1] eqn:Hstep; [|discriminate].
    simpl in Hdates. apply List.NoDup_cons_iff in Hdates as [Hr Hdates].
    apply weekmenu_row_step in Hstep.
    assert (Hset : exists n d,
               wm1 = set_menu wm (Day.date r) n d
               /\ (forall b, Day.recipe b = Some n -> Day.description b = Some d ->
                             slot_content traditions (eligible_recipes w) r b)
               /\ List.NoDup (map Recipe.row_number (eligible_recipes w1))
               /\ (forall x, In x (eligible_recipes w1) -> In x (eligible_recipes w))).
    { unfold slot_content. destruct (traditions !! Day.weekday r) as [t|].
      - destruct Hstep as [H ->]. injection H as ->. exists t, "". auto.
      - destruct Hstep as [[msg [H _]] | [c [x [H [Hc [Hx ->]]]]]]; [discriminate|].
        injection H as ->. exists (Recipe.recipe x), (Recipe.description x).
        split; [reflexivity|]. split; [|split].
        + intros b Hb1 Hb2. exists x. split; [|auto].
          apply candidates_In in Hc as [y [Hy [Hrow Hd]]].
          apply loc_Some in Hx as [Hx Hrow'].
          assert (x = y) by (apply (row_number_inj _ _ _ Hrows Hx Hy); congruence).
          subst y. apply filter_In. split; [exact Hx | apply String.eqb_eq, Hd].
        + apply drop_NoDup, Hrows.
        + intros y Hy. simpl in Hy. apply drop_In in Hy. tauto. }
    destruct Hset as [n [d [-> [Hcontent [Hrows1 Hsub]]]]].
    specialize (IH _ _ _ _ Hdates Hrows1 Hrun). unfold set_menu in IH.
    apply Forall2_map_left in IH.
    eapply Forall2_weaken_In; [exact IH|].
    intros a b _ [Hsame Hrest].
    destruct (set_menu_row (Day.date r) n d a) as [E1 _]. cbv zeta in E1.
    rewrite E1 in Hsame, Hrest.
    split.
    + intros Hnot. simpl in Hnot.
      rewrite Hsame by tauto.
      destruct (Day.date a =? Day.date r) eqn:E; [|reflexivity].
      apply Z.eqb_eq in E. exfalso. apply Hnot. left. symmetry. exact E.
    + intros r' [<- | Hr'] Hd.
      * rewrite Hsame by (rewrite <- Hd; exact Hr).
        rewrite Hd, Z.eqb_refl. apply Hcontent; reflexivity.
      * apply (slot_content_mono _ _ _ _ _ Hsub). apply Hrest; assumption.
Qed.

(** X12. For a table with distinct dates and an eligible frame with distinct
    row numbers, the table that [generate_weekmenu] returns holds, for each
    slot in order, the tradition of its weekday with an empty description, or
    else the name and the description of an eligible recipe marked
    'difficult'. *)
Theorem generate_weekmenu_content (rng : nat -> nat) (SPREADSHEET_ID : string)
        (events_df : list Day.t) (traditions : gmap string string)
        (free_events : list string) (weekmenu_df : list Day.t) (w w' : world) :
  List.NoDup (map Day.date events_df) ->
  List.NoDup (map Recipe.row_number (eligible_recipes w)) ->
  generate_weekmenu rng SPREADSHEET_ID events_df traditions free_events w
  = (Ok weekmenu_df, w') ->
  Forall2 (fun r b => slot_content traditions (eligible_recipes w) r b)
          events_df weekmenu_df.
Proof.
  intros Hdates Hrows Hrun. unfold generate_weekmenu in Hrun.
  apply (iterrows_content _ _ _ _ _ _ _ _ _ Hdates Hrows) in Hrun.
  eapply Forall2_weaken_In; [exact Hrun|].
  intros a b Hin [_ H]. apply H; [exact Hin | reflexivity].
Qed.

Lemma generate_weekmenu_content_witness :
  Forall2 (fun r b => slot_content (TRADITIONS sample_config)
                                   (eligible_recipes weekend_world) r b)
          [friday_slot; saturday_slot; sunday_slot]
          [Day.mk 17900 (Some "WORK") None "Friday" (Some "Pizza") (Some "");
           Day.mk 17901 None None "Saturday" (Some "Stew") (Some "Beef, slow cooked");
           Day.mk 17902 None None "Sunday" (Some "Roast") (Some "Sunday roast")].
Proof.
  apply (generate_weekmenu_content rng0 "sheet-1" [friday_slot; saturday_slot; sunday_slot]
           (TRADITIONS sample_config) ["HOME"] _ weekend_world
           (snd (generate_weekmenu rng0 "sheet-1" [friday_slot; saturday_slot; sunday_slot]
                   (TRADITIONS sample_config) ["HOME"] weekend_world))).
  - repeat constructor; simpl; intuition lia.
  - repeat constructor; simpl; intuition discriminate.
  - vm_compute. reflexivity.
Defined.

(** ** The script as a whole *)

(** A table that [create_events_df] returns has the dates of the range, and
    the weekday of each. *)
Lemma create_events_df_Ok (START_DAY NEXT_WEEK : Z)
      (events_list_1 events_list_2 : list (Z * string)) (events_df : list Day.t) :
  create_events_df START_DAY NEXT_WEEK events_list_1 events_list_2 = Ok events_df ->
  map Day.date events_df = period_range START_DAY NEXT_WEEK
  /\ map Day.weekday events_df = map Date.strftime_A (period_range START_DAY NEXT_WEEK).
Proof.
  unfold create_events_df, reindex.
  destruct (has_duplicates _); [discriminate|].
  intros H. injection H as <-.
  rewrite !map_map. cbn [Day.date Day.weekday].
  assert (Hrow : forall d,
             row_date (match find (fun r => row_date r =? d)
                                  (sort_index (merge_outer events_list_1 events_list_2)) with
                       | Some r => r
                       | None => (d, None, None)
                       end) = d).
  { intros d. destruct (find _ _) as [r|] eqn:Hf; [|reflexivity].
    apply find_some in Hf as [_ Hf]. apply Z.eqb_eq, Hf. }
  split.
  - rewrite <- (map_id (period_range START_DAY NEXT_WEEK)) at 2.
    apply map_ext. intros d. apply Hrow.
  - apply map_ext. intros d. rewrite Hrow. reflexivity.
Qed.

Lemma Forall2_map_eq {A B C : Type} (f : A -> C) (g : B -> C) (l : list A) (l' : list B) :
  Forall2 (fun a b => g b = f a) l l' -> map g l' = map f l.
Proof. induction 1; simpl; congruence. Qed.

(** When the gate is open, the script either raises on the way, with the
    calendar untouched, or sends the rows of a filled table of the planned
    week to the calendar and prints that the menu is added. *)
Lemma main_open_gate (cfg : config) (rng : nat -> nat) (today DATE_LAST_RECIPE : Z)
      (sheet : list Recipe.t) (cal_1 cal_2 : list Api.event) :
  DATE_LAST_RECIPE - NB_DAYS_BEFORE cfg < today ->
  (exists e w, main cfg rng today DATE_LAST_RECIPE sheet cal_1 cal_2 = (Uncaught e, w)
               /\ calendar_requests w = [])
  \/ (exists weekmenu_df w,
         main cfg rng today DATE_LAST_RECIPE sheet cal_1 cal_2
         = (Printed "Week menu is added to Google Calendar", w)
         /\ calendar_requests w = map (menu_event (CALENDARID_WEEKMENU cfg)) weekmenu_df
         /\ map Day.date weekmenu_df
            = period_range (DATE_LAST_RECIPE + 1) (DATE_LAST_RECIPE + 1 + 6)
         /\ Forall filled weekmenu_df
         /\ (length (sheet_requests w) <= 7)%nat).
Proof.
  intros Hgate. unfold main.
  destruct (get_recipes (PREV_WEEK DATE_LAST_RECIPE) sheet) as [all eligible].
  replace (DATE_LAST_RECIPE - NB_DAYS_BEFORE cfg <? today) with true
    by (symmetry; apply Z.ltb_lt; exact Hgate).
  destruct (Api.get_events_by_calendarId today cal_1 (ALL_EVENTS cfg))
    as [events_list_1|x1]; [|left; eexists; eexists; split; reflexivity].
  destruct (Api.get_events_by_calendarId today cal_2 (ALL_EVENTS cfg))
    as [events_list_2|x2]; [|left; eexists; eexists; split; reflexivity].
  destruct (create_events_df _ _ _ _) as [events_df|e] eqn:Hdf;
    [|left; eexists; eexists; split; reflexivity].
  apply create_events_df_Ok in Hdf as [Hdates _].
  unfold NEXT_WEEK, START_DAY in Hdates.
  unfold bind.
  destruct (generate_weekmenu rng (SPREADSHEET_ID cfg) events_df (TRADITIONS cfg)
                              (FREE_EVENTS cfg) (mkWorld all eligible [] [] 0))
    as [[wm|e] w1] eqn:Hgen; unfold generate_weekmenu in Hgen.
  - right. rewrite add_weekmenu_to_calendar_spec.
    pose proof (iterrows_table _ _ _ _ _ _ _ _ _ Hgen) as Htable.
    destruct (iterrows_requests _ _ _ _ _ _ _ _ _ Hgen)
      as [_ [Hcal [_ [k [new [Hreq [Hnew _]]]]]]].
    simpl in Hcal, Hreq.
    eexists. eexists. split; [reflexivity|]. cbn [calendar_requests sheet_requests].
    rewrite Hcal. split; [reflexivity|]. split; [|split].
    + rewrite <- Hdates. apply Forall2_map_eq.
      eapply Forall2_weaken_In; [exact Htable|]. intros a b _ H. exact (proj1 H).
    + apply (Forall2_weaken_In _ (fun _ b => filled b)) in Htable.
      * clear - Htable. induction Htable; constructor; assumption.
      * intros a b Hin [_ [_ [_ [_ H]]]]. apply H. right. apply in_map, Hin.
    + rewrite Hreq. apply Forall2_length in Hnew. rewrite <- Hnew, length_firstn.
      assert (Hlen : (length (drawn_slots (TRADITIONS cfg) events_df) <= length events_df)%nat)
        by apply List.filter_length_le.
      apply (f_equal (@length Z)) in Hdates. rewrite length_map in Hdates.
      rewrite period_range_week in Hdates. simpl in Hdates. lia.
  - left. destruct (iterrows_requests _ _ _ _ _ _ _ _ _ Hgen) as [_ [Hcal _]].
    eexists. eexists. split; [reflexivity|]. exact Hcal.
Qed.

Lemma main_closed_gate (cfg : config) (rng : nat -> nat) (today DATE_LAST_RECIPE : Z)
      (sheet : list Recipe.t) (cal_1 cal_2 : list Api.event) :
  today <= DATE_LAST_RECIPE - NB_DAYS_BEFORE cfg ->
  exists w,
    main cfg rng today DATE_LAST_RECIPE sheet cal_1 cal_2
    = (Printed "Program stopped. Last week menu is not finished yet.", w)
    /\ calendar_requests w = [].
Proof.
  intros Hgate. unfold main.
  destruct (get_recipes (PREV_WEEK DATE_LAST_RECIPE) sheet) as [all eligible].
  replace (DATE_LAST_RECIPE - NB_DAYS_BEFORE cfg <? today) with false
    by (symmetry; apply Z.ltb_ge; exact Hgate).
  eexists. split; reflexivity.
Qed.

(** The eligible frame at the end of a run holds only rows that [get_recipes]
    made eligible at its start. *)
Lemma main_eligible_recipes (cfg : config) (rng : nat -> nat) (today DATE_LAST_RECIPE : Z)
      (sheet : list Recipe.t) (cal_1 cal_2 : list Api.event) (x : Recipe.t) :
  In x (eligible_recipes (snd (main cfg rng today DATE_LAST_RECIPE sheet cal_1 cal_2))) ->
  In x (snd (get_recipes (PREV_WEEK DATE_LAST_RECIPE) sheet)).
Proof.
  unfold main.
  destruct (get_recipes (PREV_WEEK DATE_LAST_RECIPE) sheet) as [all eligible]. cbn [snd].
  destruct (DATE_LAST_RECIPE - NB_DAYS_BEFORE cfg <? today); [|exact id].
  destruct (Api.get_events_by_calendarId today cal_1 (ALL_EVENTS cfg)); [|exact id].
  destruct (Api.get_events_by_calendarId today cal_2 (ALL_EVENTS cfg)); [|exact id].
  destruct (create_events_df _ _ _ _) as [events_df|e]; [|exact id].
  unfold bind.
  destruct (generate_weekmenu rng (SPREADSHEET_ID cfg) events_df (TRADITIONS cfg)
                              (FREE_EVENTS cfg) (mkWorld all eligible [] [] 0))
    as [[wm|e] w1] eqn:Hgen; unfold generate_weekmenu in Hgen;
    destruct (iterrows_requests _ _ _ _ _ _ _ _ _ Hgen) as [_ [_ [Hsub _]]].
  - rewrite add_weekmenu_to_calendar_spec. exact (Hsub x).
  - exact (Hsub x).
Qed.

(** C4. The bound [PREV_WEEK] that the script gives to [get_recipes] is seven
    days before [START_DAY], the first day of the week to plan. [get_recipes]
    returns as eligible exactly the recipes of the sheet whose last date on
    the menu is missing or strictly before that day minus seven days. A recipe
    whose last date is on or after that bound is not eligible, and is not in
    the eligible frame at the end of any run of the script. The first
    component is the whole sheet, and a run that stops at the gate ends with
    the eligible frame as [get_recipes] returned it. *)
Theorem get_recipes_eligible (DATE_LAST_RECIPE : Z) (pool : list Recipe.t) (r : Recipe.t) :
  fst (get_recipes (PREV_WEEK DATE_LAST_RECIPE) pool) = pool /\
  (In r (snd (get_recipes (PREV_WEEK DATE_LAST_RECIPE) pool)) <->
   In r pool /\
   (Recipe.last_date_on_menu r = None \/
    exists d, Recipe.last_date_on_menu r = Some d /\ d < START_DAY DATE_LAST_RECIPE - 7)) /\
  (forall d, Recipe.last_date_on_menu r = Some d -> START_DAY DATE_LAST_RECIPE - 7 <= d ->
             ~ In r (snd (get_recipes (PREV_WEEK DATE_LAST_RECIPE) pool))
             /\ forall cfg rng today cal_1 cal_2,
                 ~ In r (eligible_recipes
                           (snd (main cfg rng today DATE_LAST_RECIPE pool cal_1 cal_2)))) /\
  (forall cfg rng today cal_1 cal_2,
      today <= DATE_LAST_RECIPE - NB_DAYS_BEFORE cfg ->
      eligible_recipes (snd (main cfg rng today DATE_LAST_RECIPE pool cal_1 cal_2))
      = snd (get_recipes (PREV_WEEK DATE_LAST_RECIPE) pool)).
Proof.
  assert (Hbound : PREV_WEEK DATE_LAST_RECIPE = START_DAY DATE_LAST_RECIPE - 7)
    by (unfold PREV_WEEK; lia).
  assert (Hiff : In r (snd (get_recipes (PREV_WEEK DATE_LAST_RECIPE) pool)) <->
                 In r pool /\
                 (Recipe.last_date_on_menu r = None \/
                  exists d, Recipe.last_date_on_menu r = Some d
                            /\ d < START_DAY DATE_LAST_RECIPE - 7)).
  { unfold get_recipes. cbn [snd]. rewrite filter_In, eligible_cell, Hbound. reflexivity. }
  split; [reflexivity|]. split; [exact Hiff|]. split.
  - intros d Hd Hle.
    assert (Hnot : ~ In r (snd (get_recipes (PREV_WEEK DATE_LAST_RECIPE) pool))).
    { intros Hin. apply Hiff in Hin as [_ [Hc | [x [Hx Hlt]]]]; [congruence|].
      rewrite Hd in Hx. injection Hx as ->. lia. }
    split; [exact Hnot|].
    intros cfg rng today cal_1 cal_2 Hin. apply Hnot.
    exact (main_eligible_recipes _ _ _ _ _ _ _ _ Hin).
  - intros cfg rng today cal_1 cal_2 Hgate. unfold main.
    destruct (get_recipes (PREV_WEEK DATE_LAST_RECIPE) pool) as [all eligible].
    replace (DATE_LAST_RECIPE - NB_DAYS_BEFORE cfg <? today) with false
      by (symmetry; apply Z.ltb_ge; exact Hgate).
    reflexivity.
Qed.

Lemma get_recipes_eligible_witness :
  ~ In curry (snd (get_recipes (PREV_WEEK 17896) [soup; stew; roast; curry]))
  /\ (forall cfg rng today cal_1 cal_2,
         ~ In curry (eligible_recipes
                       (snd (main cfg rng today 17896 [soup; stew; roast; curry]
                                  cal_1 cal_2))))
  /\ eligible_recipes (snd (main sample_config rng0 17890 17896 [soup; stew; roast; curry]
                                 [] []))
     = [soup; stew; roast].
Proof.
  split; [|split].
  - apply (proj1 (proj2 (proj2 (get_recipes_eligible 17896 [soup; stew; roast; curry] curry)))
             17895).
    + reflexivity.
    + unfold START_DAY. lia.
  - apply (proj1 (proj2 (proj2 (get_recipes_eligible 17896 [soup; stew; roast; curry] curry)))
             17895).
    + reflexivity.
    + unfold START_DAY. lia.
  - rewrite (proj2 (proj2 (proj2 (get_recipes_eligible 17896 [soup; stew; roast; curry]
                                    curry)))).
    + reflexivity.
    + simpl. lia.
Defined.

(** What a run that printed that the menu is added has sent. *)
Lemma main_printed_added (cfg : config) (rng : nat -> nat) (today DATE_LAST_RECIPE : Z)
        (sheet : list Recipe.t) (cal_1 cal_2 : list Api.event) (w : world) :
  main cfg rng today DATE_LAST_RECIPE sheet cal_1 cal_2
  = (Printed "Week menu is added to Google Calendar", w) ->
  map ins_start_date (calendar_requests w)
  = map Date.isoformat
        [DATE_LAST_RECIPE + 1; DATE_LAST_RECIPE + 2; DATE_LAST_RECIPE + 3;
         DATE_LAST_RECIPE + 4; DATE_LAST_RECIPE + 5; DATE_LAST_RECIPE + 6;
         DATE_LAST_RECIPE + 7]
  /\ Forall (fun ev => ins_calendarId ev = CALENDARID_WEEKMENU cfg
                       /\ ins_summary ev <> None /\ ins_description ev <> None
                       /\ ins_end_date ev = ins_start_date ev)
            (calendar_requests w)
  /\ (length (sheet_requests w) <= 7)%nat.
Proof.
  intros Hmain.
  destruct (Z_lt_le_dec (DATE_LAST_RECIPE - NB_DAYS_BEFORE cfg) today) as [Hopen | Hclosed].
  - destruct (main_open_gate cfg rng today DATE_LAST_RECIPE sheet cal_1 cal_2 Hopen)
      as [[e [w0 [H _]]] | [wm [w0 [H [Hcal [Hdates [Hfilled Hsheet]]]]]]];
      rewrite Hmain in H; [discriminate|].
    injection H as <-. rewrite Hcal. split; [|split; [|exact Hsheet]].
    + rewrite map_map. cbn [menu_event ins_start_date].
      rewrite <- (map_map Day.date Date.isoformat), Hdates, period_range_week.
      repeat (f_equal; try lia).
    + clear - Hfilled. induction Hfilled as [|r l [H1 H2] _ IH]; constructor; auto.
  - destruct (main_closed_gate cfg rng today DATE_LAST_RECIPE sheet cal_1 cal_2 Hclosed)
      as [w0 [H _]].
    rewrite Hmain in H. discriminate.
Qed.

(** X13. When the script prints that the week menu is added, it has sent
    exactly seven events to the menu calendar, one for each of the seven days
    after the last day of the previous menu, in order, each with a recipe as
    summary and with a description; and at most seven requests to the sheet. *)
Theorem main_added_week (cfg : config) (rng : nat -> nat) (today DATE_LAST_RECIPE : Z)
        (sheet : list Recipe.t) (cal_1 cal_2 : list Api.event) (w : world) :
  main cfg rng today DATE_LAST_RECIPE sheet cal_1 cal_2
  = (Printed "Week menu is added to Google Calendar", w) ->
  map ins_start_date (calendar_requests w)
  = map Date.isoformat
        [DATE_LAST_RECIPE + 1; DATE_LAST_RECIPE + 2; DATE_LAST_RECIPE + 3;
         DATE_LAST_RECIPE + 4; DATE_LAST_RECIPE + 5; DATE_LAST_RECIPE + 6;
         DATE_LAST_RECIPE + 7]
  /\ Forall (fun ev => ins_calendarId ev = CALENDARID_WEEKMENU cfg
                       /\ ins_summary ev <> None /\ ins_description ev <> None
                       /\ ins_end_date ev = ins_start_date ev)
            (calendar_requests w)
  /\ (length (sheet_requests w) <= 7)%nat.
Proof. exact (main_printed_added cfg rng today DATE_LAST_RECIPE sheet cal_1 cal_2 w). Qed.

Lemma main_added_week_witness :
  map ins_start_date
      (calendar_requests
         (snd (main config_all_traditions rng0 17897 17898 [soup; stew] [] [])))
  = map Date.isoformat [17898 + 1; 17898 + 2; 17898 + 3; 17898 + 4; 17898 + 5;
                        17898 + 6; 17898 + 7].
Proof.
  apply (main_added_week config_all_traditions rng0 17897 17898 [soup; stew] [] []).
  vm_compute. reflexivity.
Defined.

(** X14. The calendar is written all at once or not at all: unless the
    script prints that the week menu is added, whether it stops at the gate
    or raises on the way, it has sent no event to the calendar. *)
Theorem main_calendar_all_or_nothing (cfg : config) (rng : nat -> nat)
        (today DATE_LAST_RECIPE : Z) (sheet : list Recipe.t)
        (cal_1 cal_2 : list Api.event) :
  fst (main cfg rng today DATE_LAST_RECIPE sheet cal_1 cal_2)
  <> Printed "Week menu is added to Google Calendar" ->
  calendar_requests (snd (main cfg rng today DATE_LAST_RECIPE sheet cal_1 cal_2)) = [].
Proof.
  intros Hnot.
  destruct (Z_lt_le_dec (DATE_LAST_RECIPE - NB_DAYS_BEFORE cfg) today) as [Hopen | Hclosed].
  - destruct (main_open_gate cfg rng today DATE_LAST_RECIPE sheet cal_1 cal_2 Hopen)
      as [[e [w0 [H Hcal]]] | [wm [w0 [H _]]]]; rewrite H in *.
    + exact Hcal.
    + exfalso. apply Hnot. reflexivity.
  - destruct (main_closed_gate cfg rng today DATE_LAST_RECIPE sheet cal_1 cal_2 Hclosed)
      as [w0 [H Hcal]].
    rewrite H. exact Hcal.
Qed.

Lemma main_calendar_all_or_nothing_witness :
  calendar_requests
    (snd (main sample_config rng0 17897 17898 [soup; stew; roast] [] [])) = [].
Proof.
  apply main_calendar_all_or_nothing. vm_compute. discriminate.
Defined.

(** X15. The script prints that it stops exactly when the last day of the
    previous menu, moved back by the lead time, is today or later. *)
Theorem main_stops_iff (cfg : config) (rng : nat -> nat) (today DATE_LAST_RECIPE : Z)
        (sheet : list Recipe.t) (cal_1 cal_2 : list Api.event) :
  fst (main cfg rng today DATE_LAST_RECIPE sheet cal_1 cal_2)
  = Printed "Program stopped. Last week menu is not finished yet."
  <-> today <= DATE_LAST_RECIPE - NB_DAYS_BEFORE cfg.
Proof.
  split.
  - intros Hstop.
    destruct (Z_lt_le_dec (DATE_LAST_RECIPE - NB_DAYS_BEFORE cfg) today)
      as [Hopen | Hclosed]; [|exact Hclosed].
    destruct (main_open_gate cfg rng today DATE_LAST_RECIPE sheet cal_1 cal_2 Hopen)
      as [[e [w0 [H _]]] | [wm [w0 [H _]]]]; rewrite H in Hstop; discriminate.
  - intros Hclosed.
    destruct (main_closed_gate cfg rng today DATE_LAST_RECIPE sheet cal_1 cal_2 Hclosed)
      as [w0 [H _]].
    rewrite H. reflexivity.
Qed.

(** X16. Weeks follow each other without a gap: after a run that printed that
    the menu is added, [get_date_last_event] on a list that ends with the
    events of that run gives the seventh day after the previous last day, so
    the next week starts on the eighth. *)
Theorem main_then_get_date_last_event (cfg : config) (rng : nat -> nat)
        (today DATE_LAST_RECIPE : Z) (sheet : list Recipe.t)
        (cal_1 cal_2 : list Api.event) (w : world) (earlier : list Api.event) :
  is_date (DATE_LAST_RECIPE + 7) ->
  main cfg rng today DATE_LAST_RECIPE sheet cal_1 cal_2
  = (Printed "Week menu is added to Google Calendar", w) ->
  Api.get_date_last_event (earlier ++ map listed (calendar_requests w))
  = Done (DATE_LAST_RECIPE + 7).
Proof.
  intros Hdate Hmain.
  destruct (main_printed_added _ _ _ _ _ _ _ _ Hmain) as [Hdates _].
  destruct (calendar_requests w) as [|e1 [|e2 [|e3 [|e4 [|e5 [|e6 [|e7 [|e8 l]]]]]]]];
    try discriminate.
  injection Hdates as _ _ _ _ _ _ H7.
  change (map listed [e1; e2; e3; e4; e5; e6; e7])
    with (map listed [e1; e2; e3; e4; e5; e6] ++ [listed e7]).
  rewrite app_assoc. unfold Api.get_date_last_event. rewrite rev_unit.
  cbn [listed Api.start Api.date]. rewrite H7, isoformat_ten.
  apply strptime_date_isoformat, Hdate.
Qed.

Lemma main_then_get_date_last_event_witness :
  Api.get_date_last_event
    ([] ++ map listed
              (calendar_requests
                 (snd (main config_all_traditions rng0 17897 17898 [soup; stew] [] []))))
  = Done (17898 + 7).
Proof.
  apply (main_then_get_date_last_event config_all_traditions rng0 17897 17898
           [soup; stew] [] []).
  - unfold is_date. lia.
  - vm_compute. reflexivity.
Defined.

Lemma filter_map_NoDup {A B : Type} (f : A -> B) (p : A -> bool) (l : list A) :
  List.NoDup (map f l) -> List.NoDup (map f (List.filter p l)).
Proof.
  induction l as [|a l IH]; intros H; [constructor|]. simpl in *.
  apply List.NoDup_cons_iff in H as [Ha Hl].
  destruct (p a); [|exact (IH Hl)].
  simpl. constructor; [|exact (IH Hl)].
  intros Hin. apply Ha. apply in_map_iff in Hin as [x [Hx Hf]].
  apply filter_In in Hf as [Hf _]. apply in_map_iff. exists x. auto.
Qed.

Lemma create_events_df_unique (START_DAY NEXT_WEEK : Z)
      (events_list_1 events_list_2 : list (Z * string)) :
  List.NoDup (map fst events_list_1) -> List.NoDup (map fst events_list_2) ->
  exists events_df,
    create_events_df START_DAY NEXT_WEEK events_list_1 events_list_2 = Ok events_df.
Proof.
  intros H1 H2. unfold create_events_df, reindex.
  rewrite (proj2 (has_duplicates_false _) (merge_outer_NoDup _ _ H1 H2)).
  eexists. reflexivity.
Qed.

(** X17. The script prints that the week menu is added whenever the gate is
    open, both calendars are read without an error, neither reading gives two
    labelled entries for one day, the row numbers of the sheet are distinct,
    and at least seven eligible recipes are marked 'difficult'. *)
Theorem main_succeeds (cfg : config) (rng : nat -> nat) (today DATE_LAST_RECIPE : Z)
        (sheet : list Recipe.t) (cal_1 cal_2 : list Api.event)
        (events_list_1 events_list_2 : list (Z * string)) :
  DATE_LAST_RECIPE - NB_DAYS_BEFORE cfg < today ->
  Api.get_events_by_calendarId today cal_1 (ALL_EVENTS cfg) = Done events_list_1 ->
  Api.get_events_by_calendarId today cal_2 (ALL_EVENTS cfg) = Done events_list_2 ->
  List.NoDup (map fst events_list_1) ->
  List.NoDup (map fst events_list_2) ->
  List.NoDup (map Recipe.row_number sheet) ->
  (7 <= length (query_difficult (snd (get_recipes (PREV_WEEK DATE_LAST_RECIPE) sheet))))%nat ->
  fst (main cfg rng today DATE_LAST_RECIPE sheet cal_1 cal_2)
  = Printed "Week menu is added to Google Calendar".
Proof.
  intros Hgate Hread1 Hread2 H1 H2 Hrows Hseven. unfold main.
  unfold get_recipes in *. cbn [snd] in Hseven.
  replace (DATE_LAST_RECIPE - NB_DAYS_BEFORE cfg <? today) with true
    by (symmetry; apply Z.ltb_lt; exact Hgate).
  rewrite Hread1, Hread2.
  destruct (create_events_df_unique (START_DAY DATE_LAST_RECIPE) (NEXT_WEEK DATE_LAST_RECIPE)
              _ _ H1 H2) as [events_df Hdf].
  rewrite Hdf. apply create_events_df_Ok in Hdf as [Hdates _].
  unfold NEXT_WEEK in Hdates.
  unfold bind.
  match goal with
  | |- context [generate_weekmenu ?a ?b ?c ?d ?e ?w0] =>
      destruct (proj1 (iterrows_succeeds a b d e c c w0
                         ltac:(apply filter_map_NoDup; exact Hrows)))
        as [wm [w1 Hgen]]
  end.
  - cbn [eligible_recipes].
    assert (Hlen : (length (drawn_slots (TRADITIONS cfg) events_df) <= length events_df)%nat)
      by apply List.filter_length_le.
    apply (f_equal (@length Z)) in Hdates. rewrite length_map in Hdates.
    rewrite period_range_week in Hdates. simpl in Hdates. lia.
  - unfold generate_weekmenu. rewrite Hgen.
    rewrite add_weekmenu_to_calendar_spec. reflexivity.
Qed.

Lemma main_succeeds_witness :
  fst (main sample_config rng0 17897 17898
            [stew; roast;
             Recipe.mk "6" "Paella" "" "difficult" None;
             Recipe.mk "7" "Lasagne" "" "difficult" None;
             Recipe.mk "8" "Ramen" "" "difficult" None;
             Recipe.mk "9" "Mole" "" "difficult" None;
             Recipe.mk "10" "Cassoulet" "" "difficult" None]
            [all_day {| ev_start := 17899; ev_end := 17900; summary := "Work" |}]
            [all_day {| ev_start := 17900; ev_end := 17902; summary := "Home" |}])
  = Printed "Week menu is added to Google Calendar".
Proof.
  apply (main_succeeds sample_config rng0 17897 17898 _ _ _
           [(17899, "WORK")] [(17900, "HOME"); (17901, "HOME")]).
  - simpl. lia.
  - vm_compute. reflexivity.
  - vm_compute. reflexivity.
  - repeat constructor; simpl; intuition lia.
  - repeat constructor; simpl; intuition lia.
  - repeat constructor; simpl; intuition discriminate.
  - vm_compute. lia.
Defined.

(** ** When the table of the week cannot be built *)

Lemma count_occ_same (l : list Z) (v d : Z) :
  (forall x, In x l -> x = v) ->
  count_occ Z.eq_dec l d = if v =? d then length l else 0%nat.
Proof.
  induction l as [|x l IH]; intros H; simpl.
  - destruct (v =? d); reflexivity.
  - rewrite IH by (intros y Hy; apply H; right; exact Hy).
    rewrite (H x (or_introl eq_refl)).
    destruct (Z.eq_dec v d) as [-> | Hne].
    + rewrite Z.eqb_refl. reflexivity.
    + apply Z.eqb_neq in Hne. rewrite Hne. reflexivity.
Qed.

Lemma filter_key_count (df : list (Z * string)) (d : Z) :
  length (List.filter (fun r => fst r =? d) df) = count_occ Z.eq_dec (map fst df) d.
Proof.
  induction df as [|r l IH]; simpl; [reflexivity|].
  destruct (Z.eq_dec (fst r) d) as [-> | Hne].
  - rewrite Z.eqb_refl. simpl. rewrite IH. reflexivity.
  - apply Z.eqb_neq in Hne. rewrite Hne. exact IH.
Qed.

(** How often a date occurs in the index of the merged frame: once for each
    pair of a left and a right entry of that date, and once for each entry
    without a partner. *)
Lemma merge_outer_count (df1 df2 : list (Z * string)) (d : Z) :
  count_occ Z.eq_dec (map row_date (merge_outer df1 df2)) d
  = Nat.add
      (Nat.mul (count_occ Z.eq_dec (map fst df1) d)
               (Nat.max 1 (count_occ Z.eq_dec (map fst df2) d)))
      (if existsb (fun l => fst l =? d) df1 then 0%nat
       else count_occ Z.eq_dec (map fst df2) d).
Proof.
  unfold merge_outer. rewrite map_app, count_occ_app. f_equal.
  - induction df1 as [|l df1 IH]; [reflexivity|].
    cbn [flat_map]. rewrite map_app, count_occ_app, IH. clear IH.
    assert (Hrows : count_occ Z.eq_dec
                      (map row_date
                         match List.filter (fun r => fst r =? fst l) df2 with
                         | [] => [(fst l, Some (snd l), None)]
                         | m :: ms =>
                             map (fun r => (fst l, Some (snd l), Some (snd r))) (m :: ms)
                         end) d
                    = if fst l =? d
                      then Nat.max 1 (count_occ Z.eq_dec (map fst df2) (fst l))
                      else 0%nat).
    { rewrite <- filter_key_count.
      destruct (List.filter (fun r => fst r =? fst l) df2) as [|m ms].
      - rewrite (count_occ_same _ (fst l)); [reflexivity|].
        intros x [<- | []]. reflexivity.
      - rewrite (count_occ_same _ (fst l)).
        + rewrite !length_map. cbn [length]. destruct (fst l =? d); lia.
        + intros x Hx. apply in_map_iff in Hx as [row [<- Hrow]].
          apply in_map_iff in Hrow as [r [<- _]]. reflexivity. }
    match goal with
    | |- Nat.add ?a _ = _ =>
        assert (Ha : a = if fst l =? d
                         then Nat.max 1 (count_occ Z.eq_dec (map fst df2) (fst l))
                         else 0%nat) by exact Hrows;
        rewrite Ha
    end.
    cbn [map count_occ].
    destruct (Z.eq_dec (fst l) d) as [-> | Hne].
    + rewrite Z.eqb_refl. lia.
    + apply Z.eqb_neq in Hne. rewrite Hne. lia.
  - induction df2 as [|r df2 IH]; [destruct (existsb _ df1); reflexivity|].
    cbn [flat_map]. rewrite map_app, count_occ_app, IH. clear IH.
    cbn [map count_occ].
    destruct (Z.eq_dec (fst r) d) as [-> | Hne].
    + destruct (existsb (fun l => fst l =? d) df1); simpl.
      * reflexivity.
      * unfold row_date. simpl. destruct (Z.eq_dec d d); [reflexivity | contradiction].
    + destruct (existsb (fun l => fst l =? fst r) df1); simpl.
      * reflexivity.
      * unfold row_date. simpl.
        destruct (Z.eq_dec (fst r) d); [contradiction|].
        destruct (existsb (fun l => fst l =? d) df1); reflexivity.
Qed.

Lemma existsb_key_count (df : list (Z * string)) (d : Z) :
  existsb (fun l => fst l =? d) df = true
  <-> (1 <= count_occ Z.eq_dec (map fst df) d)%nat.
Proof.
  rewrite existsb_key, (count_occ_In Z.eq_dec). lia.
Qed.

(** X18. [create_events_df] raises exactly when one of its two lists has two
    entries for the same day, wherever that day lies; otherwise it returns a
    table. *)
Theorem create_events_df_raises_iff (START_DAY : Z)
        (events_list_1 events_list_2 : list (Z * string)) :
  create_events_df START_DAY (START_DAY + 6) events_list_1 events_list_2
  = Raise (ValueError "cannot reindex on an axis with duplicate labels")
  <-> ~ (List.NoDup (map fst events_list_1) /\ List.NoDup (map fst events_list_2)).
Proof.
  split.
  - intros Hraise [H1 H2].
    destruct (create_events_df_unique START_DAY (START_DAY + 6) _ _ H1 H2) as [df Hdf].
    congruence.
  - intros Hdup. unfold create_events_df, reindex.
    destruct (has_duplicates (map row_date
                (sort_index (merge_outer events_list_1 events_list_2)))) eqn:E;
      [reflexivity|].
    exfalso. apply Hdup. apply has_duplicates_false in E.
    assert (Hmerged : List.NoDup (map row_date (merge_outer events_list_1 events_list_2))).
    { apply (Permutation_NoDup (l := map row_date
                                        (sort_index (merge_outer events_list_1 events_list_2))));
        [apply Permutation_map, sort_by_perm | exact E]. }
    rewrite (List.NoDup_count_occ Z.eq_dec) in Hmerged.
    split; apply (List.NoDup_count_occ Z.eq_dec); intros d;
      specialize (Hmerged d); rewrite merge_outer_count in Hmerged;
      pose proof (existsb_key_count events_list_1 d) as Hk;
      destruct (existsb (fun l => fst l =? d) events_list_1);
      destruct (count_occ Z.eq_dec (map fst events_list_1) d) as [|[|c1]];
      destruct (count_occ Z.eq_dec (map fst events_list_2) d) as [|[|c2]];
      simpl in Hmerged; try lia;
      try (destruct Hk as [Hk _]; specialize (Hk eq_refl); lia).
Qed.

(** X19. In a table that [create_events_df] returns for a week, every name of
    a weekday occurs exactly once: a tradition for a weekday applies to one
    slot, and to one only. *)
Theorem create_events_df_weekdays (START_DAY : Z)
        (events_list_1 events_list_2 : list (Z * string)) (events_df : list Day.t) :
  create_events_df START_DAY (START_DAY + 6) events_list_1 events_list_2 = Ok events_df ->
  Permutation (map Day.weekday events_df)
              ["Monday"; "Tuesday"; "Wednesday"; "Thursday"; "Friday"; "Saturday"; "Sunday"].
Proof.
  intros Hdf. apply create_events_df_Ok in Hdf as [_ ->].
  rewrite period_range_week. unfold Date.strftime_A, Date.weekday. cbn [map].
  assert (Hw : 0 <= (START_DAY + 3) mod 7 < 7) by (apply Z.mod_pos_bound; lia).
  remember ((START_DAY + 3) mod 7) as k eqn:Hk.
  assert (Hshift : forall j, 0 <= j <= 6 -> (START_DAY + j + 3) mod 7 = (k + j) mod 7).
  { intros j _. subst k. rewrite Z.add_mod_idemp_l by lia. f_equal. lia. }
  rewrite !Hshift by lia. clear Hshift Hk.
  assert (Hcases : k = 0 \/ k = 1 \/ k = 2 \/ k = 3 \/ k = 4 \/ k = 5 \/ k = 6) by lia.
  destruct Hcases as [-> | [-> | [-> | [-> | [-> | [-> | ->]]]]]];
    repeat match goal with
           | |- context [(?a + ?b) mod 7] =>
               let v := eval vm_compute in ((a + b) mod 7) in
               change ((a + b) mod 7) with v
           end;
    cbn [Date.day_name].
  - apply Permutation_refl.
  - apply (Permutation_app_comm
             ["Tuesday"; "Wednesday"; "Thursday"; "Friday"; "Saturday"; "Sunday"]
             ["Monday"]).
  - apply (Permutation_app_comm
             ["Wednesday"; "Thursday"; "Friday"; "Saturday"; "Sunday"]
             ["Monday"; "Tuesday"]).
  - apply (Permutation_app_comm
             ["Thursday"; "Friday"; "Saturday"; "Sunday"]
             ["Monday"; "Tuesday"; "Wednesday"]).
  - apply (Permutation_app_comm
             ["Friday"; "Saturday"; "Sunday"]
             ["Monday"; "Tuesday"; "Wednesday"; "Thursday"]).
  - apply (Permutation_app_comm
             ["Saturday"; "Sunday"]
             ["Monday"; "Tuesday"; "Wednesday"; "Thursday"; "Friday"]).
  - apply (Permutation_app_comm
             ["Sunday"]
             ["Monday"; "Tuesday"; "Wednesday"; "Thursday"; "Friday"; "Saturday"]).
Qed.

Lemma create_events_df_weekdays_witness :
  Permutation
    (map Day.weekday
         [Day.mk 17899 None None "Thursday" None None;
          Day.mk 17900 None None "Friday" None None;
          Day.mk 17901 None None "Saturday" None None;
          Day.mk 17902 None None "Sunday" None None;
          Day.mk 17903 None None "Monday" None None;
          Day.mk 17904 None None "Tuesday" None None;
          Day.mk 17905 None None "Wednesday" None None])
    ["Monday"; "Tuesday"; "Wednesday"; "Thursday"; "Friday"; "Saturday"; "Sunday"].
Proof.
  apply (create_events_df_weekdays 17899 [] []). reflexivity.
Defined.

(** ** What the unfolding returns *)

Lemma range_In (n k : Z) : In k (range n) <-> 0 <= k < n.
Proof.
  unfold range. rewrite in_map_iff. split.
  - intros [i [<- Hi]]. apply in_seq in Hi. lia.
  - intros Hk. exists (Z.to_nat k). split; [lia|]. apply in_seq. lia.
Qed.

(** X20. An entry (day, label) is in the list that [unfold_events_list]
    returns exactly when some event with that label either spans more than
    one day, covers the day (its end excluded) and the day is at most six
    days after the day of the run and not before it, or spans at most one day
    and starts on the day. An event of one day is kept wherever it lies. *)
Theorem unfold_events_list_In (today : Z) (events_list : list (Z * Z * string))
        (d : Z) (label : string) :
  In (d, label) (unfold_events_list today events_list)
  <-> exists start end_,
        In (start, end_, label) events_list
        /\ ((end_ - start > 1 /\ start <= d < end_ /\ today <= d <= today + 6)
            \/ (end_ - start <= 1 /\ d = start)).
Proof.
  rewrite unfold_events_list_flat_map, in_flat_map. split.
  - intros [[[s e] l] [Hev Hin]].
    destruct (Z_gt_le_dec (e - s) 1) as [Hmulti | Hsingle].
    + rewrite (unfold_event_multi_day today s e l Hmulti) in Hin.
      unfold spec_expand in Hin. apply in_map_iff in Hin as [x [Heq Hx]].
      injection Heq as -> ->. apply filter_In in Hx as [Hx Hw].
      apply in_map_iff in Hx as [k [<- Hk]]. apply range_In in Hk.
      apply andb_true_iff in Hw as [Hw1 Hw2]. apply Z.leb_le in Hw1, Hw2.
      exists s, e. split; [exact Hev|]. left. lia.
    + rewrite (unfold_event_single_day today s e l Hsingle) in Hin.
      destruct Hin as [Heq | []]. injection Heq as -> ->.
      exists d, e. split; [exact Hev|]. right. lia.
  - intros [s [e [Hev [[Hmulti [Hspan Hwin]] | [Hsingle ->]]]]];
      exists (s, e, label); (split; [exact Hev|]).
    + rewrite (unfold_event_multi_day today s e label Hmulti).
      unfold spec_expand. apply in_map_iff. exists d. split; [reflexivity|].
      apply filter_In. split.
      * apply in_map_iff. exists (d - s). split; [lia|]. apply range_In. lia.
      * apply andb_true_iff. split; apply Z.leb_le; lia.
    + rewrite (unfold_event_single_day today s e label Hsingle). left. reflexivity.
Qed.

Lemma upper_ascii_idem (c : ascii) : upper_ascii (upper_ascii c) = upper_ascii c.
Proof. destruct c as [[] [] [] [] [] [] [] []]; reflexivity. Qed.

Lemma upper_idem (s : string) : upper (upper s) = upper s.
Proof.
  induction s as [|c s IH]; simpl; [reflexivity|].
  rewrite upper_ascii_idem, IH. reflexivity.
Qed.

Lemma unfold_event_label (today : Z) (e : Z * Z * string) (d : Z) (label : string) :
  In (d, label) (unfold_event today e) -> label = snd e.
Proof.
  destruct e as [[s en] l]. unfold unfold_event.
  destruct (en - s >? 1).
  - intros H. apply in_flat_map in H as [k [_ H]].
    destruct ((s + k >=? today) && (s + k <=? today + 6)); [|destruct H].
    destruct H as [H | []]. injection H as _ <-. reflexivity.
  - intros [H | []]. injection H as _ <-. reflexivity.
Qed.

(** X21. Every label that [get_events_by_calendarId] returns is one of the
    labels of [allEvents], is the upper-case form of the summary of an event
    of the calendar, and is itself in upper case; so a label of [allEvents]
    that is not in upper case selects nothing. *)
Theorem get_events_by_calendarId_labels (today : Z) (events : list gcal_event)
        (allEvents : list string) (d : Z) (label : string) :
  In (d, label) (get_events_by_calendarId today events allEvents) ->
  In label allEvents
  /\ upper label = label
  /\ exists e, In e events /\ label = upper (summary e).
Proof.
  unfold get_events_by_calendarId. rewrite unfold_events_list_flat_map.
  intros H. apply in_flat_map in H as [t [Ht Hin]].
  apply unfold_event_label in Hin.
  apply in_map_iff in Ht as [e [<- He]]. simpl in Hin. subst label.
  apply filter_In in He as [He Hall]. apply str_in_In in Hall.
  split; [exact Hall|]. split; [apply upper_idem|]. exists e. auto.
Qed.

Lemma get_events_by_calendarId_labels_witness :
  In "WORK" ["WORK"; "Sport"]
  /\ upper "WORK" = "WORK"
  /\ exists e, In e [{| ev_start := 17902; ev_end := 17903; summary := "Work" |};
                     {| ev_start := 17902; ev_end := 17903; summary := "Sport" |}]
               /\ "WORK" = upper (summary e).
Proof.
  apply (get_events_by_calendarId_labels 17897 _ _ 17902 "WORK").
  left. reflexivity.
Defined.

(** X22. [format_date] writes a date as a text of twenty characters, the ISO
    date followed by midnight in UTC, and the first ten characters read back
    as the date: different dates give different texts. *)
Theorem format_date_reads_back (n : Z) :
  is_date n ->
  String.length (format_date n) = 20%nat
  /\ str_prefix 10 (format_date n) = Date.isoformat n
  /\ Strptime.strptime (str_prefix 10 (format_date n)) = Ok n
  /\ (forall m, is_date m -> format_date m = format_date n -> m = n).
Proof.
  intros Hn.
  assert (Hshape : forall k, String.length (format_date k) = 20%nat
                             /\ str_prefix 10 (format_date k) = Date.isoformat k).
  { intros k. unfold format_date, Date.isoformat.
    destruct (Date.civil k) as [[y m] d]. split; reflexivity. }
  destruct (Hshape n) as [Hlen Hpre].
  split; [exact Hlen|]. split; [exact Hpre|].
  split; [rewrite Hpre; apply strptime_isoformat_range, Hn|].
  intros m Hm Heq.
  assert (H : Strptime.strptime (str_prefix 10 (format_date m))
              = Strptime.strptime (str_prefix 10 (format_date n))) by (rewrite Heq; reflexivity).
  rewrite Hpre, (proj2 (Hshape m)) in H.
  rewrite (strptime_isoformat_range m Hm), (strptime_isoformat_range n Hn) in H.
  congruence.
Qed.

Lemma format_date_reads_back_witness :
  String.length (format_date 17897) = 20%nat
  /\ str_prefix 10 (format_date 17897) = Date.isoformat 17897
  /\ Strptime.strptime (str_prefix 10 (format_date 17897)) = Ok 17897
  /\ (forall m, is_date m -> format_date m = format_date 17897 -> m = 17897).
Proof.
  apply format_date_reads_back. unfold is_date. lia.
Defined.
